(** * create-hana: the React generator, its templates and the source-file editor

    A shallow embedding of the scaffolding core of create-hana:

    - [src/types/core.ts]: [Config], [ProjectContext], [PackageJsonConfig];
    - [src/questions/options/common.ts]: the option lists behind [Language],
      [PkgManager] and [CodeQualityTools];
    - the React generator ([reactGenerator.generate], [generateCssFramework],
      [generateCssPreprocessor], [generateRoutingLibrary]) and the template
      utilities ([renderTemplate], [getFileExtension], the [generate*]
      string builders).

    JavaScript strings are modelled as [string] (sequences of 8-bit code
    units), objects used as dictionaries ([context.files], [devDependencies],
    ...) as [gmap string string], and the generator as a function that threads
    the mutable [ProjectContext] and either completes normally or throws. The
    context a throwing call leaves behind is kept: JavaScript does not roll
    back the in-place mutations made before a [throw]. *)

From Stdlib Require Import Ascii String List Bool Arith Lia.
From stdpp Require Import base option gmap strings list fin_maps.

(** ** Strings *)

(** Rocq string literals in this file never contain the double-quote
    character.  Template text that has one in the source is written with [~]
    in its place (no template of the source contains a tilde) and passed
    through [quoted], which puts the double quotes back. *)
Definition dquote : ascii := ascii_of_nat 34.

Fixpoint quoted (s : string) : string :=
  match s with
  | EmptyString => EmptyString
  | String c rest =>
      String (if Ascii.eqb c "~"%char then dquote else c) (quoted rest)
  end.

(** JavaScript truthiness of an optional string: [undefined] and the empty
    string are falsy, every other string is truthy. *)
Definition truthy (o : option string) : bool :=
  match o with
  | Some s => negb (String.eqb s "")
  | None => false
  end.

(** [a || b] on an optional string with a string default. *)
Definition or_else (o : option string) (d : string) : string :=
  match o with
  | Some s => if String.eqb s "" then d else s
  | None => d
  end.

(** [o === s] for an optional string [o] and a string literal [s]. *)
Definition strict_eq (o : option string) (s : string) : bool :=
  match o with
  | Some s' => String.eqb s' s
  | None => false
  end.

(** ** The option lists and the configuration ([common.ts], [core.ts]) *)

(** [COMMON_LANGUAGE_OPTIONS[number]['value']]. *)
Inductive Language : Type := typescript | javascript.

(** [COMMON_MANAGER_OPTIONS[number]['value']]. *)
Inductive PkgManager : Type := pnpm | yarn | npm | bun.

(** [COMMON_CODE_QUALITY_TOOLS_OPTIONS[number]['value']]. *)
Inductive CodeQualityTools : Type := eslint | eslint_prettier | biome | quality_none.

(** The discriminant of [Config]: ['node' | 'react' | 'vue'], or absent. *)
Inductive ProjectType : Type := node | react | vue.

Definition projectType_name (p : ProjectType) : string :=
  match p with
  | node => "node"
  | react => "react"
  | vue => "vue"
  end.

(** [projectType !== 'react']. *)
Definition not_react (o : option ProjectType) : bool :=
  match o with
  | Some react => false
  | _ => true
  end.

(** [language === 'typescript']. *)
Definition is_typescript (o : option Language) : bool :=
  match o with
  | Some typescript => true
  | _ => false
  end.

(** A [projectType] value interpolated into a template literal. *)
Definition projectType_text (o : option ProjectType) : string :=
  match o with
  | Some p => projectType_name p
  | None => "undefined"
  end.

(** [Config] as the generator sees it at run time: one flat object.  The
    project-specific fields come from [./project-configs], which is not among
    the sources; the generator only compares them with string literals and
    tests them for truthiness, so they are optional strings here. *)
Record Config : Type := mkConfig {
  targetDir : option string;
  removeExistFolder : option bool;
  git : option bool;
  installDeps : option bool;
  language : option Language;
  pkgManager : option PkgManager;
  codeQualityTools : option CodeQualityTools;
  codeQualityConfig : option bool;
  projectType : option ProjectType;
  buildTool : option string;
  cssFramework : option string;
  cssPreprocessor : option string;
  routingLibrary : option string;
}.

(** [PackageJsonConfig].  The open-ended members ([exports] and the index
    signature) are never touched by the generator and are left out. *)
Record PackageJsonConfig : Type := mkPackageJson {
  name : string;
  version : string;
  description : option string;
  type : option string;
  main : option string;
  module : option string;
  types : option string;
  scripts : option (gmap string string);
  dependencies : option (gmap string string);
  devDependencies : option (gmap string string);
  peerDependencies : option (gmap string string);
  pkgFiles : option (list string);
  keywords : option (list string);
  author : option string;
  license : option string;
  engines : option (gmap string string);
}.

(** ** Errors *)

(** Modelled from the spec: [ErrorMessages.validation.invalidProjectType]
    ([@/constants/errors]) and [ErrorFactory.validation] ([@/error/factory])
    are not among the sources.  The spec describes the result as a typed
    validation error carrying the offending value; the message is kept as the
    call that builds it, applied to the offending [projectType]. *)
Inductive ErrorMessage : Type :=
  | invalidProjectType (offending : option ProjectType).

(** What a call can throw: the validation error of the generators, or the
    [TypeError] JavaScript raises when a method is called on an editor that is
    [undefined] (the non-null assertion [!] is erased at run time). *)
Inductive HanaError : Type :=
  | validation (message : ErrorMessage)
  | TypeError (method : string).

(** ** Template functions *)

Definition getFileExtension (language : Language) : string :=
  match language with
  | typescript => ".ts"
  | javascript => ".js"
  end.

Definition generateAppFile : string :=
"function App() {
  return (
    <h1>Hello, vite + react</h1>
  )
}

export default App
".

Definition generateMainFile (appFileName : string) : string :=
"import { createRoot } from 'react-dom/client'
import App from './" +:+ appFileName +:+ "'

createRoot(document.getElementById('root')!).render(<App />)
".

Definition generateCounterFile : string := Eval cbv in quoted
"import { useState } from 'react'

export function Counter() {
  const [count, setCount] = useState(0)

  return (
    <div>
      <h1>
        Count:
        {count}
      </h1>
      <button type=~button~ onClick={() => setCount(count + 1)}>+</button>
      <button type=~button~ onClick={() => setCount(count - 1)}>-</button>
    </div>
  )
}
".

(** The local [generateUnoCssConfig] of [generateCssFramework]; the template
    literal keeps the indentation it has in the source. *)
Definition generateUnoCssConfig : string :=
"import {
    defineConfig,
    presetAttributify,
    presetIcons,
    presetTypography,
    presetWebFonts,
    presetWind3,
    transformerDirectives,
    transformerVariantGroup,
  } from 'unocss'
  
  export default defineConfig({
    presets: [
      /* Core Presets */
      presetWind3(),
      presetAttributify(),
      presetIcons(),
      presetTypography(),
      presetWebFonts(),
    ],
    transformers: [transformerDirectives(), transformerVariantGroup()],
  })
  ".

(** The local templates of [generateRoutingLibrary]. *)
Definition generateReactRouterIndex : string := Eval cbv in quoted
"import { createBrowserRouter } from ~react-router~

const router = createBrowserRouter([
  {
    path: ~/~,
    element: () => import('./pages/home'),
  }
])
".

Definition generateDefaultPage : string :=
"export default function Home() {
  return <div>This is default page</div>
}
".

Definition generateViteEnvFile : string := Eval cbv in quoted
"/// <reference types=~vite/client~ />
".

(** [description || `A ${projectType} project`]. *)
Definition generateReadmeTemplate
    (projectType projectName : string) (description : option string) : string :=
"# " +:+ projectName +:+ "

" +:+ or_else description ("A " +:+ projectType +:+ " project") +:+ "

## License

MIT
".

Definition generateHtmlTemplate (title mainScriptPath : string) : string :=
quoted "<!doctype html>
<html lang=~en~>
  <head>
    <meta charset=~UTF-8~ />
    <link rel=~icon~ type=~image/svg+xml~ href=~/vite.svg~ />
    <meta name=~viewport~ content=~width=device-width, initial-scale=1.0~ />
    <title>" +:+ title +:+ quoted "</title>
  </head>
  <body>
    <div id=~app~></div>
    <script type=~module~ src=~" +:+ mainScriptPath +:+ quoted "~></script>
  </body>
</html>
".

Definition generateHanaLogo : string := Eval cbv in quoted
"<svg xmlns=~http://www.w3.org/2000/svg~ width=~48~ height=~48~ viewBox=~0 0 24 24~ fill=~none~ stroke=~currentColor~ stroke-width=~2~ stroke-linecap=~round~ stroke-linejoin=~round~ class=~lucide lucide-flower-icon lucide-flower~>
  <circle cx=~12~ cy=~12~ r=~3~/>
  <path d=~M12 16.5A4.5 4.5 0 1 1 7.5 12 4.5 4.5 0 1 1 12 7.5a4.5 4.5 0 1 1 4.5 4.5 4.5 4.5 0 1 1-4.5 4.5~/>
  <path d=~M12 7.5V9~/>
  <path d=~M7.5 12H9~/>
  <path d=~M16.5 12H15~/>
  <path d=~M12 16.5V15~/>
  <path d=~m8 8 1.88 1.88~/>
  <path d=~M14.12 9.88 16 8~/>
  <path d=~m8 16 1.88-1.88~/>
  <path d=~M14.12 14.12 16 16~/>
</svg>
".

Definition generateGitignore : string :=
"# Logs
logs
*.log
npm-debug.log*
yarn-debug.log*
yarn-error.log*
lerna-debug.log*

# Runtime data
pids
*.pid
*.seed
*.pid.lock

# Directory for instrumented libs generated by jscoverage/JSCover
lib-cov

# Coverage directory used by tools like istanbul
coverage
*.lcov

# nyc test coverage
.nyc_output

# Grunt intermediate storage (https://gruntjs.com/creating-plugins#storing-task-files)
.grunt

# Bower dependency directory (https://bower.io/)
bower_components

# node-waf configuration
.lock-wscript

# Compiled binary addons (https://nodejs.org/api/addons.html)
build/Release

# Dependency directories
node_modules/
jspm_packages/

# Snowpack dependency directory (https://snowpack.dev/)
web_modules/

# TypeScript cache
*.tsbuildinfo

# Optional npm cache directory
.npm

# Optional eslint cache
.eslintcache

# Microbundle cache
.rpt2_cache/
.rts2_cache_cjs/
.rts2_cache_es/
.rts2_cache_umd/

# Optional REPL history
.node_repl_history

# Output of 'npm pack'
*.tgz

# Yarn Integrity file
.yarn-integrity

# dotenv environment variables file
.env
.env.test
.env.production

# parcel-bundler cache (https://parceljs.org/)
.cache
.parcel-cache

# Next.js build output
.next

# Nuxt.js build / generate output
.nuxt
dist

# Gatsby files
.cache/
public

# Storybook build outputs
.out
.storybook-out

# Temporary folders
tmp/
temp/

# Runtime data
pids
*.pid
*.seed
*.pid.lock

# IDE files
.vscode/
.idea/
*.swp
*.swo

# OS generated files
.DS_Store
.DS_Store?
._*
.Spotlight-V100
.Trashes
ehthumbs.db
Thumbs.db
".

(** ** The project context and the editors the generator calls *)

(** The two editor classes of [@/editor] are not among the sources.  The
    generator only calls [addImport(target, statement)] on both and
    [addVitePlugin(target, expression)] on the build-tool one, so it is
    written against these two operations, for any implementation. *)
Class AddImport (E : Type) : Type :=
  addImport : string → string → E → E.

Class AddVitePlugin (E : Type) : Type :=
  addVitePlugin : string → string → E → E.

(** [ProjectContext], with the class of each editor as a parameter; an
    optional member that is [undefined] is [None]. *)
Record ProjectContext (V M : Type) : Type := mkContext {
  config : Config;
  projectDir : string;
  cwd : string;
  packageJson : PackageJsonConfig;
  files : gmap string string;
  fileExtension : string;
  viteConfigEditor : option V;
  mainEditor : option M;
}.

Arguments mkContext {V M}.
Arguments config {V M}.
Arguments projectDir {V M}.
Arguments cwd {V M}.
Arguments packageJson {V M}.
Arguments files {V M}.
Arguments fileExtension {V M}.
Arguments viteConfigEditor {V M}.
Arguments mainEditor {V M}.

(** How a call ends: normally with a value, or by throwing. *)
Inductive Completion (A : Type) : Type :=
  | Normal (a : A)
  | Throw (e : HanaError).

Arguments Normal {A}.
Arguments Throw {A}.

(** Field assignments on the manifest. *)
Definition set_name (v : string) (p : PackageJsonConfig) : PackageJsonConfig :=
  mkPackageJson v (version p) (description p) (type p) (main p) (module p)
    (types p) (scripts p) (dependencies p) (devDependencies p)
    (peerDependencies p) (pkgFiles p) (keywords p) (author p) (license p)
    (engines p).

Definition set_version (v : string) (p : PackageJsonConfig) : PackageJsonConfig :=
  mkPackageJson (name p) v (description p) (type p) (main p) (module p)
    (types p) (scripts p) (dependencies p) (devDependencies p)
    (peerDependencies p) (pkgFiles p) (keywords p) (author p) (license p)
    (engines p).

Definition set_description (v : option string) (p : PackageJsonConfig) : PackageJsonConfig :=
  mkPackageJson (name p) (version p) v (type p) (main p) (module p)
    (types p) (scripts p) (dependencies p) (devDependencies p)
    (peerDependencies p) (pkgFiles p) (keywords p) (author p) (license p)
    (engines p).

Definition set_license (v : option string) (p : PackageJsonConfig) : PackageJsonConfig :=
  mkPackageJson (name p) (version p) (description p) (type p) (main p) (module p)
    (types p) (scripts p) (dependencies p) (devDependencies p)
    (peerDependencies p) (pkgFiles p) (keywords p) (author p) v
    (engines p).

Definition set_engines (v : option (gmap string string)) (p : PackageJsonConfig)
    : PackageJsonConfig :=
  mkPackageJson (name p) (version p) (description p) (type p) (main p) (module p)
    (types p) (scripts p) (dependencies p) (devDependencies p)
    (peerDependencies p) (pkgFiles p) (keywords p) (author p) (license p)
    v.

Definition set_dependencies (v : option (gmap string string)) (p : PackageJsonConfig)
    : PackageJsonConfig :=
  mkPackageJson (name p) (version p) (description p) (type p) (main p) (module p)
    (types p) (scripts p) v (devDependencies p)
    (peerDependencies p) (pkgFiles p) (keywords p) (author p) (license p)
    (engines p).

Definition set_devDependencies (v : option (gmap string string)) (p : PackageJsonConfig)
    : PackageJsonConfig :=
  mkPackageJson (name p) (version p) (description p) (type p) (main p) (module p)
    (types p) (scripts p) (dependencies p) v
    (peerDependencies p) (pkgFiles p) (keywords p) (author p) (license p)
    (engines p).

(** [deps = deps || {}; deps[key] = value] on an optional dictionary. *)
Definition put_dep (key value : string) (deps : option (gmap string string))
    : option (gmap string string) :=
  Some (<[key := value]> (default ∅ deps)).

(** [deps[key]], reading [undefined] for an absent dictionary. *)
Definition get_dep (key : string) (deps : option (gmap string string)) : option string :=
  deps ≫= (.!! key).

(** ** The generator monad: shared mutable context, exceptions *)

Section Generator.
Context {V M : Type} `{!AddImport V, !AddVitePlugin V, !AddImport M}.

(** A call receives the context, mutates it in place and completes; the first
    component of the result is the context as the call leaves it. *)
Definition Gen (A : Type) : Type :=
  ProjectContext V M → ProjectContext V M * Completion A.

#[export] Instance Gen_ret : MRet Gen :=
  λ A a ctx, (ctx, Normal a).

#[export] Instance Gen_bind : MBind Gen :=
  λ A B f m ctx,
    match m ctx with
    | (ctx', Normal a) => f a ctx'
    | (ctx', Throw e) => (ctx', Throw e)
    end.

#[export] Instance Gen_throw : MThrow HanaError Gen :=
  λ A e ctx, (ctx, Throw e).

(** [context.files[path] = content]. *)
Definition writeFile (path content : string) : Gen unit :=
  λ ctx,
    (mkContext (config ctx) (projectDir ctx) (cwd ctx) (packageJson ctx)
       (<[path := content]> (files ctx)) (fileExtension ctx)
       (viteConfigEditor ctx) (mainEditor ctx),
     Normal ()).

(** An assignment to a member of [context.packageJson]. *)
Definition updatePackageJson (f : PackageJsonConfig → PackageJsonConfig) : Gen unit :=
  λ ctx,
    (mkContext (config ctx) (projectDir ctx) (cwd ctx) (f (packageJson ctx))
       (files ctx) (fileExtension ctx) (viteConfigEditor ctx) (mainEditor ctx),
     Normal ()).

(** [context.viteConfigEditor!.method(...)]: a [TypeError] when the editor is
    [undefined]. *)
Definition callViteConfigEditor (method : string) (f : V → V) : Gen unit :=
  λ ctx,
    match viteConfigEditor ctx with
    | Some editor =>
        (mkContext (config ctx) (projectDir ctx) (cwd ctx) (packageJson ctx)
           (files ctx) (fileExtension ctx) (Some (f editor)) (mainEditor ctx),
         Normal ())
    | None => (ctx, Throw (TypeError method))
    end.

(** [context.mainEditor!.method(...)]. *)
Definition callMainEditor (method : string) (f : M → M) : Gen unit :=
  λ ctx,
    match mainEditor ctx with
    | Some editor =>
        (mkContext (config ctx) (projectDir ctx) (cwd ctx) (packageJson ctx)
           (files ctx) (fileExtension ctx) (viteConfigEditor ctx) (Some (f editor)),
         Normal ())
    | None => (ctx, Throw (TypeError method))
    end.

(** An [if] without [else]. *)
Definition when (c : bool) (body : Gen unit) : Gen unit :=
  if c then body else mret ().

(** ** The React generator *)

(** Handle CSS Framework option. *)
Definition generateCssFramework : Gen unit := λ context,
  let config := config context in
  (if not_react (projectType config)
   then mthrow (validation (invalidProjectType (projectType config)))
   else
     if strict_eq (cssFramework config) "tailwindcss" then
       updatePackageJson (λ p,
         set_devDependencies (put_dep "tailwindcss" "^4.1.11" (devDependencies p)) p);;
       when (strict_eq (buildTool config) "vite") (
         updatePackageJson (λ p,
           set_devDependencies
             (put_dep "@tailwindcss/vite" "^4.1.11" (devDependencies p)) p);;
         writeFile "src/styles/global.css" (quoted "@import ~tailwindcss~;");;
         callViteConfigEditor "addImport"
           (addImport "viteConfig" "import tailwindcss from '@tailwindcss/vite'");;
         callViteConfigEditor "addVitePlugin"
           (addVitePlugin "viteConfig" "tailwindcss()");;
         callMainEditor "addImport"
           (addImport "main" "import './styles/global.css'"))
     else if strict_eq (cssFramework config) "unocss" then
       updatePackageJson (λ p,
         set_devDependencies (put_dep "unocss" "^66.3.3" (devDependencies p)) p);;
       when (strict_eq (buildTool config) "vite") (
         writeFile "uno.config.ts" generateUnoCssConfig;;
         callViteConfigEditor "addImport"
           (addImport "viteConfig" "import UnoCSS from 'unocss/vite'");;
         callViteConfigEditor "addVitePlugin"
           (addVitePlugin "viteConfig" "UnoCSS()");;
         callMainEditor "addImport"
           (addImport "main" "import 'virtual:uno.css'"))
     else mret ()) context.

(** Handle CSS Preprocessor option. *)
Definition generateCssPreprocessor : Gen unit := λ context,
  let config := config context in
  (if not_react (projectType config)
   then mthrow (validation (invalidProjectType (projectType config)))
   else
     if strict_eq (cssPreprocessor config) "less" then
       updatePackageJson (λ p,
         set_devDependencies (put_dep "less" "^4.3.0" (devDependencies p)) p)
     else if strict_eq (cssPreprocessor config) "scss" then
       updatePackageJson (λ p,
         set_devDependencies (put_dep "sass" "^1.89.2" (devDependencies p)) p)
     else mret ()) context.

(** Handle Routing Library option (defined in the source, called by nothing
    there). *)
Definition generateRoutingLibrary : Gen unit := λ context,
  let config := config context in
  (if not_react (projectType config)
   then mthrow (validation (invalidProjectType (projectType config)))
   else
     if strict_eq (routingLibrary config) "react-router" then
       updatePackageJson (λ p,
         set_dependencies (put_dep "react-router" "^7.6.3" (dependencies p)) p);;
       writeFile ("src/router/index" +:+ fileExtension context +:+ "x")
         generateReactRouterIndex;;
       writeFile ("src/pages/home/index" +:+ fileExtension context +:+ "x")
         generateDefaultPage
     else mret ()) context.

(** [reactGenerator.generate]. *)
Definition generate : Gen unit := λ context,
  let config := config context in
  let fileExtension := fileExtension context in
  (if not_react (projectType config)
   then mthrow (validation (invalidProjectType (projectType config)))
   else
     let projectName := or_else (targetDir config) "hana-project" in
     when (strict_eq (buildTool config) "vite") (
       callViteConfigEditor "addImport"
         (addImport "viteConfig" "import react from '@vitejs/plugin-react'");;
       callViteConfigEditor "addVitePlugin"
         (addVitePlugin "viteConfig" "react()"));;
     (* 1. Generate src directory structure *)
     let appFileName := "src/app" +:+ fileExtension +:+ "x" in
     writeFile appFileName generateAppFile;;
     let mainFileName := "src/main" +:+ fileExtension +:+ "x" in
     writeFile mainFileName (generateMainFile appFileName);;
     let counterFileName := "src/components/counter." +:+ fileExtension +:+ "x" in
     writeFile counterFileName generateCounterFile;;
     when (is_typescript (language config)) (
       writeFile "src/vite-env.d.ts" generateViteEnvFile);;
     (* 2. Generate root files *)
     writeFile "public/favicon.svg" generateHanaLogo;;
     writeFile "index.html"
       (generateHtmlTemplate "react project" ("/" +:+ mainFileName));;
     writeFile "README.md"
       (generateReadmeTemplate (projectType_text (projectType config)) projectName
          (Some "A React project"));;
     writeFile ".gitignore" generateGitignore;;
     (* 3. Modify package.json *)
     updatePackageJson (set_name projectName);;
     updatePackageJson (set_description (Some "A React project"));;
     updatePackageJson (set_version "1.0.0");;
     updatePackageJson (set_license (Some "MIT"));;
     updatePackageJson (set_engines (Some {[ "node" := ">=18.12.0" ]}));;
     (* 4. Features *)
     when (truthy (cssFramework config)
           && negb (strict_eq (cssFramework config) "none"))
       generateCssFramework;;
     when (truthy (cssPreprocessor config)) generateCssPreprocessor) context.

End Generator.

(** ** The source-file editor *)

(** Modelled from the spec: the editor ([ViteConfigEditor], [MainEditor] of
    [@/editor]) is not among the sources.  Its fragment store holds, for each
    named target, two ordered sets of strings, the imports and the
    plugin/registration entries: insertion order is kept and an exact
    duplicate is collapsed to one occurrence. *)
Record Fragments : Type := mkFragments {
  imports : list string;
  plugins : list string;
}.

Record Editor : Type := mkEditor {
  targets : gmap string Fragments;
}.

(** The store as it is created: empty. *)
Definition newEditor : Editor := mkEditor ∅.

(** The fragments of a target; a target nobody wrote to has none. *)
Definition fragments (e : Editor) (target : string) : Fragments :=
  default (mkFragments [] []) (targets e !! target).

(** Modelled from the spec: [addImport] appends the statement to the ordered
    import set of the target if it is not already present (exact string
    match), and is a no-op otherwise. *)
Definition Editor_addImport (target statement : string) (e : Editor) : Editor :=
  let fs := fragments e target in
  if bool_decide (statement ∈ imports fs) then e
  else mkEditor (<[target := mkFragments (imports fs ++ [statement]) (plugins fs)]> (targets e)).

(** Modelled from the spec: [addPlugin] (the source calls it [addVitePlugin])
    appends the expression to the ordered plugin set under the same
    duplicate-suppression rule. *)
Definition Editor_addVitePlugin (target expression : string) (e : Editor) : Editor :=
  let fs := fragments e target in
  if bool_decide (expression ∈ plugins fs) then e
  else mkEditor (<[target := mkFragments (imports fs) (plugins fs ++ [expression])]> (targets e)).

#[export] Instance Editor_AddImport : AddImport Editor := Editor_addImport.
#[export] Instance Editor_AddVitePlugin : AddVitePlugin Editor := Editor_addVitePlugin.




(** The number of positions of [text] at which [s] occurs as a substring. *)
Fixpoint occurrences (s text : string) : nat :=
  (if String.prefix s text then 1 else 0) +
  match text with
  | EmptyString => 0
  | String _ rest => occurrences s rest
  end.

(** ** [renderTemplate] *)

(** The characters [\s] matches, among the code units below 256: TAB, LF, VT,
    FF, CR, SPACE and NBSP. *)
Definition is_space (c : ascii) : bool :=
  existsb (Ascii.eqb c) (map ascii_of_nat [9; 10; 11; 12; 13; 32; 160]).

(** The syntax characters of a regular expression.  A key free of them is a
    pattern that matches itself; [new RegExp] reads any other key as regular
    expression syntax, which this model does not cover. *)
Definition syntax_characters : list ascii :=
  list_ascii_of_string "^$\.*+?()[]{}|".

Definition is_syntax_character (c : ascii) : bool :=
  existsb (Ascii.eqb c) syntax_characters.

Fixpoint literal_pattern (key : string) : bool :=
  match key with
  | EmptyString => true
  | String c rest => negb (is_syntax_character c) && literal_pattern rest
  end.

(** A backtracking matcher in continuation style: each piece of the pattern
    consumes a prefix of the text and hands the rest to the continuation [k];
    the result is the number of characters matched. *)
Fixpoint match_literal (lit : string) (k : string → option nat) (text : string)
    : option nat :=
  match lit with
  | EmptyString => k text
  | String c lit' =>
      match text with
      | String d text' =>
          if Ascii.eqb c d then S <$> match_literal lit' k text' else None
      | EmptyString => None
      end
  end.

(** [\s*]: greedy, giving characters back one at a time when the rest of the
    pattern fails. *)
Fixpoint match_spaces (k : string → option nat) (text : string) : option nat :=
  match text with
  | String c rest =>
      if is_space c then
        match S <$> match_spaces k rest with
        | Some n => Some n
        | None => k text
        end
      else k text
  | EmptyString => k text
  end.

(** The pattern [{{\s*key\s*}}] for a key that is a literal pattern, tried at
    the start of [text]: the length of the match, if there is one. *)
Definition match_placeholder (key text : string) : option nat :=
  match_literal "{{"
    (match_spaces (match_literal key (match_spaces (match_literal "}}" (λ _, Some 0)))))
    text.

Fixpoint string_take (n : nat) (s : string) : string :=
  match n, s with
  | S n', String c rest => String c (string_take n' rest)
  | _, _ => EmptyString
  end.

Fixpoint string_drop (n : nat) (s : string) : string :=
  match n, s with
  | S n', String _ rest => string_drop n' rest
  | _, _ => s
  end.

(** The replacement patterns of [String.prototype.replace] for a pattern
    without capture groups: [$$] is a dollar sign, [$&] the matched text,
    [$`] the text before the match, [$'] the text after it; any other [$]
    stands for itself. *)
Fixpoint getSubstitution (matched before after replacement : string) : string :=
  match replacement with
  | EmptyString => EmptyString
  | String c tail =>
      if Ascii.eqb c "$" then
        match tail with
        | String d rest =>
            if Ascii.eqb d "$" then
              String "$" (getSubstitution matched before after rest)
            else if Ascii.eqb d "&" then
              matched +:+ getSubstitution matched before after rest
            else if Ascii.eqb d "`" then
              before +:+ getSubstitution matched before after rest
            else if Ascii.eqb d "'" then
              after +:+ getSubstitution matched before after rest
            else String c (getSubstitution matched before after tail)
        | EmptyString => String c EmptyString
        end
      else String c (getSubstitution matched before after tail)
  end.

(** [text.replace(new RegExp(`{{\\s*${key}\\s*}}`, 'g'), replacement)] from a
    position on: [before] is the part of the string already passed, [skip]
    the number of characters still covered by the last match. *)
Fixpoint replaceFrom (key replacement : string) (skip : nat) (before text : string)
    : string :=
  match text with
  | EmptyString => EmptyString
  | String c rest =>
      match skip with
      | S n => replaceFrom key replacement n (before +:+ String c "") rest
      | O =>
          match match_placeholder key text with
          | Some len =>
              getSubstitution (string_take len text) before (string_drop len text)
                replacement
              +:+ replaceFrom key replacement (len - 1) (before +:+ String c "") rest
          | None =>
              String c (replaceFrom key replacement 0 (before +:+ String c "") rest)
          end
      end
  end.

Definition replaceAll (key replacement text : string) : string :=
  replaceFrom key replacement 0 "" text.

(** [renderTemplate(template, variables)], with [variables] given as
    [Object.entries(variables)] lists it.  [None] stands for a key with a
    regular expression syntax character, outside what is modelled. *)
Fixpoint renderTemplate (template : string) (variables : list (string * string))
    : option string :=
  match variables with
  | [] => Some template
  | (key, value) :: rest =>
      if literal_pattern key
      then renderTemplate (replaceAll key value template) rest
      else None
  end.

(** ** What the placeholder pattern is meant to match *)

(** A string of [\s] characters. *)
Fixpoint spaces (ws : string) : bool :=
  match ws with
  | EmptyString => true
  | String c rest => is_space c && spaces rest
  end.

(** A replacement without [$] is inserted as it is. *)
Fixpoint dollar_free (value : string) : bool :=
  match value with
  | EmptyString => true
  | String c rest => negb (Ascii.eqb c "$") && dollar_free rest
  end.

(** An occurrence of the placeholder of [key]: two opening braces, optional
    whitespace, the key, optional whitespace, two closing braces. *)
Definition placeholder (ws1 key ws2 : string) : string :=
  "{{" +:+ ws1 +:+ key +:+ ws2 +:+ "}}".

Definition placeholder_at_start (key text : string) : Prop :=
  ∃ ws1 ws2 rest,
    spaces ws1 = true ∧ spaces ws2 = true ∧ text = placeholder ws1 key ws2 +:+ rest.



(** A string without a closing brace. *)
Fixpoint brace_free (s : string) : bool :=
  match s with
  | EmptyString => true
  | String c rest => negb (Ascii.eqb c "}") && brace_free rest
  end.


(** ** Paths *)

(** [s.endsWith(suffix)]. *)
Definition ends_with (suffix s : string) : bool :=
  let n := String.length s in
  let m := String.length suffix in
  (m <=? n) && String.eqb (String.substring (n - m) m s) suffix.

(** A path of a script source file: under [src/], with one of the extensions
    of the two languages. *)
Definition is_source_path (path : string) : bool :=
  String.prefix "src/" path
  && (ends_with ".ts" path || ends_with ".tsx" path
      || ends_with ".js" path || ends_with ".jsx" path).

(** ** The phases of [generate] *)

Section Phases.
Context {V M : Type} `{!AddImport V, !AddVitePlugin V, !AddImport M}.

(** The two editor calls made for the [vite] build tool. *)
Definition reactPlugin (editor : V) : V :=
  addVitePlugin "viteConfig" "react()"
    (addImport "viteConfig" "import react from '@vitejs/plugin-react'" editor).

(** The file map after steps 1 and 2. *)
Definition scaffoldFiles (cfg : Config) (ext : string) (fs : gmap string string)
    : gmap string string :=
  let fs1 :=
    <["src/components/counter." +:+ ext +:+ "x" := generateCounterFile]>
      (<["src/main" +:+ ext +:+ "x" := generateMainFile ("src/app" +:+ ext +:+ "x")]>
         (<["src/app" +:+ ext +:+ "x" := generateAppFile]> fs)) in
  let fs2 :=
    if is_typescript (language cfg)
    then <["src/vite-env.d.ts" := generateViteEnvFile]> fs1
    else fs1 in
  <[".gitignore" := generateGitignore]>
    (<["README.md" := generateReadmeTemplate (projectType_text (projectType cfg))
                        (or_else (targetDir cfg) "hana-project")
                        (Some "A React project")]>
       (<["index.html" := generateHtmlTemplate "react project"
                            ("/" +:+ "src/main" +:+ ext +:+ "x")]>
          (<["public/favicon.svg" := generateHanaLogo]> fs2))).

(** The manifest after step 3. *)
Definition scaffoldManifest (cfg : Config) (p : PackageJsonConfig) : PackageJsonConfig :=
  set_engines (Some {[ "node" := ">=18.12.0" ]})
    (set_license (Some "MIT")
       (set_version "1.0.0"
          (set_description (Some "A React project")
             (set_name (or_else (targetDir cfg) "hana-project") p)))).

(** The context when step 4 starts, [editor] being the build-tool editor as
    the first lines of [generate] leave it. *)
Definition scaffold (editor : option V) (ctx : ProjectContext V M) : ProjectContext V M :=
  mkContext (config ctx) (projectDir ctx) (cwd ctx)
    (scaffoldManifest (config ctx) (packageJson ctx))
    (scaffoldFiles (config ctx) (fileExtension ctx) (files ctx))
    (fileExtension ctx) editor (mainEditor ctx).

(** Step 4. *)
Definition features : Gen unit := λ ctx,
  (when (truthy (cssFramework (config ctx))
         && negb (strict_eq (cssFramework (config ctx)) "none"))
     generateCssFramework;;
   when (truthy (cssPreprocessor (config ctx))) generateCssPreprocessor) ctx.

(** The build-tool editor is there when the build tool is [vite], as the
    orchestrator sets the context up. *)
Definition vite_ready (ctx : ProjectContext V M) : Prop :=
  strict_eq (buildTool (config ctx)) "vite" = true → is_Some (viteConfigEditor ctx).

(** Two contexts that a generation pass cannot tell apart: the same
    configuration, file extension, file map and manifest, and the same editors
    present, whatever the directories and the contents of the editors. *)
Definition same_inputs (c1 c2 : ProjectContext V M) : Prop :=
  config c1 = config c2
  ∧ fileExtension c1 = fileExtension c2
  ∧ files c1 = files c2
  ∧ packageJson c1 = packageJson c2
  ∧ (is_Some (viteConfigEditor c1) ↔ is_Some (viteConfigEditor c2))
  ∧ (is_Some (mainEditor c1) ↔ is_Some (mainEditor c2)).

(** A call that maps contexts with the same inputs to contexts with the same
    inputs, completing the same way. *)
Definition deterministic {A : Type} (m : Gen A) : Prop :=
  ∀ c1 c2, same_inputs c1 c2 →
    same_inputs (m c1).1 (m c2).1 ∧ (m c1).2 = (m c2).2.

End Phases.

(** ** Sample contexts

    Contexts as the orchestrator builds them for a fresh project: an empty
    file map, an empty manifest, the file extension of the language and one
    empty editor per target file. *)

Definition emptyManifest : PackageJsonConfig :=
  mkPackageJson "" "" None None None None None None None None None None None None
    None None.

Definition reactConfig (lang : Language) (tool framework : option string) : Config :=
  mkConfig None None None None (Some lang) None None None (Some react)
    tool framework None None.

Definition vueConfig : Config :=
  mkConfig (Some "my-app") None None None (Some typescript) None None None (Some vue)
    None None None None.

Definition freshContext (cfg : Config) (lang : Language) : ProjectContext Editor Editor :=
  mkContext cfg "/tmp/hana-project" "/tmp" emptyManifest ∅ (getFileExtension lang)
    (Some newEditor) (Some newEditor).

Definition tailwindContext : ProjectContext Editor Editor :=
  freshContext (reactConfig typescript (Some "vite") (Some "tailwindcss")) typescript.

Definition unocssContext : ProjectContext Editor Editor :=
  freshContext (reactConfig typescript (Some "vite") (Some "unocss")) typescript.

Definition javascriptContext : ProjectContext Editor Editor :=
  freshContext (reactConfig javascript (Some "vite") (Some "unocss")) javascript.

Definition webpackContext : ProjectContext Editor Editor :=
  freshContext (reactConfig typescript (Some "webpack") (Some "tailwindcss")) typescript.

Definition plainContext : ProjectContext Editor Editor :=
  freshContext (reactConfig typescript None None) typescript.

Definition vueContext : ProjectContext Editor Editor :=
  freshContext vueConfig typescript.

(** The inputs of [tailwindContext] in another directory, with editors that
    already hold fragments. *)
Definition secondPassContext : ProjectContext Editor Editor :=
  mkContext (reactConfig typescript (Some "vite") (Some "tailwindcss"))
    "/srv/app" "/srv" emptyManifest ∅ ".ts"
    (Some (Editor_addImport "viteConfig" "import path from 'node:path'" newEditor))
    (Some (Editor_addImport "main" "import './index.css'" newEditor)).

(** ** Further notions used in the properties *)

Section Readiness.
Context {V M : Type}.

(** The feature step calls the main editor: the build tool is [vite] and the
    CSS framework is one of the two the generator knows. *)
Definition uses_main_editor (cfg : Config) : bool :=
  strict_eq (buildTool cfg) "vite"
  && (strict_eq (cssFramework cfg) "tailwindcss"
      || strict_eq (cssFramework cfg) "unocss").

(** Every editor the generator will call is there. *)
Definition editors_ready (ctx : ProjectContext V M) : Prop :=
  (strict_eq (buildTool (config ctx)) "vite" = true → is_Some (viteConfigEditor ctx))
  ∧ (uses_main_editor (config ctx) = true → is_Some (mainEditor ctx)).

(** The same context under another configuration. *)
Definition with_config (cfg : Config) (ctx : ProjectContext V M) : ProjectContext V M :=
  mkContext cfg (projectDir ctx) (cwd ctx) (packageJson ctx) (files ctx)
    (fileExtension ctx) (viteConfigEditor ctx) (mainEditor ctx).

End Readiness.

(** The members of the configuration the React generator reads. *)
Definition same_choices (c1 c2 : Config) : Prop :=
  projectType c1 = projectType c2
  ∧ targetDir c1 = targetDir c2
  ∧ language c1 = language c2
  ∧ buildTool c1 = buildTool c2
  ∧ cssFramework c1 = cssFramework c2
  ∧ cssPreprocessor c1 = cssPreprocessor c2.

(** The paths the React generator can write, for a file extension. *)
Definition written_paths (ext : string) : list string :=
  [ "src/app" +:+ ext +:+ "x"; "src/main" +:+ ext +:+ "x";
    "src/components/counter." +:+ ext +:+ "x"; "src/vite-env.d.ts";
    "public/favicon.svg"; "index.html"; "README.md"; ".gitignore";
    "src/styles/global.css"; "uno.config.ts" ].

(** The dependencies the React generator can add. *)
Definition added_devDependencies : list string :=
  [ "tailwindcss"; "@tailwindcss/vite"; "unocss"; "less"; "sass" ].

(** A react project with a routing library, a preprocessor and a name, in a
    context that already holds files and dependencies. *)
Definition routedConfig : Config :=
  mkConfig (Some "shop") None (Some true) None (Some typescript) (Some pnpm) None None
    (Some react) (Some "vite") (Some "tailwindcss") (Some "scss") (Some "react-router").

Definition populatedManifest : PackageJsonConfig :=
  mkPackageJson "old" "0.0.1" None (Some "module") None None None
    (Some {[ "dev" := "vite" ]}) (Some {[ "react" := "^19.1.0" ]})
    (Some (<[ "typescript" := "^5.8.3" ]> {[ "vite" := "^7.0.0" ]}))
    None None None (Some "hana") None (Some {[ "pnpm" := ">=9" ]}).

Definition populatedFiles : gmap string string :=
  <[ "LICENSE" := "MIT" ]> {[ "index.html" := "<html></html>" ]}.

Definition routedContext : ProjectContext Editor Editor :=
  mkContext routedConfig "/srv/shop" "/srv" populatedManifest populatedFiles ".ts"
    (Some newEditor) (Some newEditor).

(** [routedContext] without its main editor. *)
Definition noMainEditorContext : ProjectContext Editor Editor :=
  mkContext routedConfig "/srv/shop" "/srv" populatedManifest populatedFiles ".ts"
    (Some newEditor) None.

(** [routedContext] without its build-tool editor. *)
Definition noViteEditorContext : ProjectContext Editor Editor :=
  mkContext routedConfig "/srv/shop" "/srv" populatedManifest populatedFiles ".ts"
    None (Some newEditor).

(** A text without two opening braces in a row. *)
Fixpoint no_open_braces (text : string) : bool :=
  match text with
  | String c rest =>
      negb (Ascii.eqb c "{" && match rest with
                               | String d _ => Ascii.eqb d "{"
                               | EmptyString => false
                               end)
      && no_open_braces rest
  | EmptyString => true
  end.

Section Choices.
Context {V M : Type} `{!AddImport V, !AddVitePlugin V, !AddImport M}.

(** A step that, run under another configuration with the same choices, does
    the same to the rest of the context and completes the same way. *)
Definition reads_choices (step : Gen (V:=V) (M:=M) unit) : Prop :=
  ∀ ctx cfg', same_choices (config ctx) cfg' →
    step (with_config cfg' ctx) = (with_config cfg' (step ctx).1, (step ctx).2).

End Choices.

(** [routedConfig] with other answers to the questions the React generator
    does not read. *)
Definition unroutedConfig : Config :=
  mkConfig (Some "shop") (Some true) None (Some false) (Some typescript) (Some bun)
    (Some biome) (Some true) (Some react) (Some "vite") (Some "tailwindcss")
    (Some "scss") (Some "wouter").

Definition unocssWebpackContext : ProjectContext Editor Editor :=
  freshContext (reactConfig typescript (Some "webpack") (Some "unocss")) typescript.

(** * Properties *)

(** ** The React generator, phase by phase *)

Ltac ctx_simpl :=
  cbn [fst snd config projectDir cwd packageJson files fileExtension viteConfigEditor
       mainEditor name version description type main module types scripts
       dependencies devDependencies peerDependencies pkgFiles keywords author
       license engines set_name set_version set_description set_license set_engines
       set_dependencies set_devDependencies].

Ltac eval_tests :=
  repeat match goal with
  | |- context [strict_eq (Some ?a) ?b] =>
      let r := eval vm_compute in (strict_eq (Some a) b) in
      change (strict_eq (Some a) b) with r
  end;
  cbn [not_react is_typescript andb negb]; cbv iota.

Ltac gen_step :=
  unfold when, mbind, Gen_bind, mret, Gen_ret, mthrow, Gen_throw, writeFile,
    updatePackageJson, callViteConfigEditor, callMainEditor; ctx_simpl.

Ltac files_lookup :=
  cbv [String.append];
  repeat first
    [ rewrite lookup_insert_eq
    | rewrite lookup_insert_ne by discriminate ].

Lemma strict_eq_false (o : option string) (s : string) :
  o ≠ Some s → strict_eq o s = false.
Proof.
  destruct o as [s'|]; [|done]. intros Hne. cbn [strict_eq].
  apply String.eqb_neq. congruence.
Qed.

Lemma strict_eq_true (o : option string) (s : string) :
  o = Some s → strict_eq o s = true.
Proof. intros ->. cbn [strict_eq]. apply String.eqb_refl. Qed.

Section GeneratorFacts.
Context {V M : Type} `{!AddImport V, !AddVitePlugin V, !AddImport M}.
Implicit Types ctx : ProjectContext V M.

Lemma not_react_true (o : option ProjectType) : o ≠ Some react → not_react o = true.
Proof. destruct o as [[]|]; simpl; congruence. Qed.

(** The guard of the first lines. *)
Lemma generate_not_react ctx :
  not_react (projectType (config ctx)) = true →
  generate ctx = (ctx, Throw (validation (invalidProjectType (projectType (config ctx))))).
Proof. intros H. unfold generate. cbn zeta. rewrite H. reflexivity. Qed.

(** With the [vite] build tool and its editor, [generate] registers the React
    plugin, writes the scaffold and runs the features. *)
Lemma generate_vite ctx ve :
  projectType (config ctx) = Some react →
  strict_eq (buildTool (config ctx)) "vite" = true →
  viteConfigEditor ctx = Some ve →
  generate ctx = features (scaffold (Some (reactPlugin ve)) ctx).
Proof.
  intros Hp Hb Hv. destruct ctx as [cfg pd cw pj fs ext v m]. simpl in *. subst v.
  unfold generate, features, scaffold, scaffoldFiles. cbn [config fileExtension].
  rewrite Hp, Hb. cbn [not_react].
  destruct (is_typescript (language cfg)); reflexivity.
Qed.

(** With the [vite] build tool and no editor, the first editor call throws and
    nothing has been written. *)
Lemma generate_vite_no_editor ctx :
  projectType (config ctx) = Some react →
  strict_eq (buildTool (config ctx)) "vite" = true →
  viteConfigEditor ctx = None →
  generate ctx = (ctx, Throw (TypeError "addImport")).
Proof.
  intros Hp Hb Hv. destruct ctx as [cfg pd cw pj fs ext v m]. simpl in *. subst v.
  unfold generate. cbn [config fileExtension].
  rewrite Hp, Hb. reflexivity.
Qed.

(** With any other build tool the editors are not called before step 4. *)
Lemma generate_no_vite ctx :
  projectType (config ctx) = Some react →
  strict_eq (buildTool (config ctx)) "vite" = false →
  generate ctx = features (scaffold (viteConfigEditor ctx) ctx).
Proof.
  intros Hp Hb. destruct ctx as [cfg pd cw pj fs ext v m]. simpl in *.
  unfold generate, features, scaffold, scaffoldFiles. cbn [config fileExtension].
  rewrite Hp, Hb. cbn [not_react].
  destruct (is_typescript (language cfg)); reflexivity.
Qed.

Lemma generate_ready ctx :
  projectType (config ctx) = Some react →
  vite_ready ctx →
  ∃ editor, generate ctx = features (scaffold editor ctx).
Proof.
  intros Hp Hr. destruct (strict_eq (buildTool (config ctx)) "vite") eqn:Hb.
  - destruct (Hr Hb) as [ve Hve]. eauto using generate_vite.
  - eauto using generate_no_vite.
Qed.

Lemma get_put_dep_ne k k' v d : k ≠ k' → get_dep k (put_dep k' v d) = get_dep k d.
Proof.
  intros Hk. unfold get_dep, put_dep. cbn [mbind option_bind].
  rewrite lookup_insert_ne by congruence. by destruct d.
Qed.

Lemma get_put_dep k v d : get_dep k (put_dep k v d) = Some v.
Proof. unfold get_dep, put_dep. cbn [mbind option_bind]. apply lookup_insert_eq. Qed.

(** What the preprocessor step leaves alone. *)
Lemma generateCssPreprocessor_frame ctx :
  let ctx' := (generateCssPreprocessor ctx).1 in
  config ctx' = config ctx ∧ fileExtension ctx' = fileExtension ctx
  ∧ files ctx' = files ctx
  ∧ viteConfigEditor ctx' = viteConfigEditor ctx ∧ mainEditor ctx' = mainEditor ctx
  ∧ packageJson ctx' =
      set_devDependencies (devDependencies (packageJson ctx')) (packageJson ctx)
  ∧ ∀ k, k ≠ "less" → k ≠ "sass" →
      get_dep k (devDependencies (packageJson ctx'))
      = get_dep k (devDependencies (packageJson ctx)).
Proof.
  destruct ctx as [cfg pd cw pj fs ext v m]. destruct pj.
  unfold generateCssPreprocessor. cbv zeta. ctx_simpl.
  destruct (not_react (projectType cfg)); [by gen_step|].
  destruct (strict_eq (cssPreprocessor cfg) "less");
    [|destruct (strict_eq (cssPreprocessor cfg) "scss")]; gen_step;
    repeat split; try done; intros k ? ?; by apply get_put_dep_ne.
Qed.

(** What the framework step leaves alone. *)
Lemma generateCssFramework_frame ctx :
  let ctx' := (generateCssFramework ctx).1 in
  config ctx' = config ctx ∧ fileExtension ctx' = fileExtension ctx
  ∧ packageJson ctx' =
      set_devDependencies (devDependencies (packageJson ctx')) (packageJson ctx)
  ∧ ∀ k, k ≠ "src/styles/global.css" → k ≠ "uno.config.ts" →
      files ctx' !! k = files ctx !! k.
Proof.
  destruct ctx as [cfg pd cw pj fs ext v m]. destruct pj.
  unfold generateCssFramework. cbv zeta. ctx_simpl.
  destruct (not_react (projectType cfg)); [by gen_step|].
  destruct (strict_eq (cssFramework cfg) "tailwindcss");
    [|destruct (strict_eq (cssFramework cfg) "unocss")];
    destruct (strict_eq (buildTool cfg) "vite"), v, m; gen_step;
    repeat split; try done; intros k ? ?; by rewrite lookup_insert_ne by congruence.
Qed.

(** The tailwindcss branch under [vite]; the call on the main editor comes
    last, so these hold whether or not that editor is there. *)
Lemma generateCssFramework_tailwindcss_vite ctx ve :
  projectType (config ctx) = Some react →
  cssFramework (config ctx) = Some "tailwindcss" →
  buildTool (config ctx) = Some "vite" →
  viteConfigEditor ctx = Some ve →
  let ctx' := (generateCssFramework ctx).1 in
  files ctx' = <["src/styles/global.css" := quoted "@import ~tailwindcss~;"]> (files ctx)
  ∧ devDependencies (packageJson ctx') =
      put_dep "@tailwindcss/vite" "^4.1.11"
        (put_dep "tailwindcss" "^4.1.11" (devDependencies (packageJson ctx)))
  ∧ viteConfigEditor ctx' =
      Some (addVitePlugin "viteConfig" "tailwindcss()"
              (addImport "viteConfig" "import tailwindcss from '@tailwindcss/vite'" ve)).
Proof.
  intros Hp Hc Hb Hv. destruct ctx as [cfg pd cw pj fs ext v m]. simpl in *. subst v.
  unfold generateCssFramework. cbv zeta. ctx_simpl. rewrite Hp, Hc, Hb.
  eval_tests. destruct m; gen_step; done.
Qed.

(** The unocss branch under [vite], with both editors. *)
Lemma generateCssFramework_unocss_vite ctx ve me :
  projectType (config ctx) = Some react →
  cssFramework (config ctx) = Some "unocss" →
  buildTool (config ctx) = Some "vite" →
  viteConfigEditor ctx = Some ve →
  mainEditor ctx = Some me →
  let ctx' := (generateCssFramework ctx).1 in
  files ctx' = <["uno.config.ts" := generateUnoCssConfig]> (files ctx)
  ∧ devDependencies (packageJson ctx') =
      put_dep "unocss" "^66.3.3" (devDependencies (packageJson ctx))
  ∧ mainEditor ctx' = Some (addImport "main" "import 'virtual:uno.css'" me).
Proof.
  intros Hp Hc Hb Hv Hm. destruct ctx as [cfg pd cw pj fs ext v m]. simpl in *. subst v m.
  unfold generateCssFramework. cbv zeta. ctx_simpl. rewrite Hp, Hc, Hb.
  eval_tests. gen_step. done.
Qed.

(** The tailwindcss branch under any other build tool: one dependency. *)
Lemma generateCssFramework_tailwindcss_other ctx :
  projectType (config ctx) = Some react →
  cssFramework (config ctx) = Some "tailwindcss" →
  strict_eq (buildTool (config ctx)) "vite" = false →
  generateCssFramework ctx =
    (mkContext (config ctx) (projectDir ctx) (cwd ctx)
       (set_devDependencies
          (put_dep "tailwindcss" "^4.1.11" (devDependencies (packageJson ctx)))
          (packageJson ctx))
       (files ctx) (fileExtension ctx) (viteConfigEditor ctx) (mainEditor ctx),
     Normal ()).
Proof.
  intros Hp Hc Hb. destruct ctx as [cfg pd cw pj fs ext v m]. simpl in *.
  unfold generateCssFramework. cbv zeta. ctx_simpl. rewrite Hp, Hc, Hb.
  eval_tests. gen_step. done.
Qed.

(** Step 4 ends in the context the framework step leaves, or in the one the
    preprocessor step makes of it. *)
Lemma features_cases ctx :
  let c1 :=
    if truthy (cssFramework (config ctx))
       && negb (strict_eq (cssFramework (config ctx)) "none")
    then (generateCssFramework ctx).1 else ctx in
  (features ctx).1 = c1 ∨ (features ctx).1 = (generateCssPreprocessor c1).1.
Proof.
  unfold features.
  destruct (truthy (cssFramework (config ctx))
            && negb (strict_eq (cssFramework (config ctx)) "none")); gen_step.
  - destruct (generateCssFramework ctx) as [c [[]|e]]; ctx_simpl; [|by left].
    destruct (truthy (cssPreprocessor (config ctx))); [by right|by left].
  - destruct (truthy (cssPreprocessor (config ctx))); [by right|by left].
Qed.
Lemma generateCssPreprocessor_normal ctx :
  projectType (config ctx) = Some react →
  (generateCssPreprocessor ctx).2 = Normal ().
Proof.
  intros Hp. destruct ctx as [cfg pd cw pj fs ext v m]. cbn [config] in Hp.
  unfold generateCssPreprocessor. cbv zeta. ctx_simpl. rewrite Hp. cbn [not_react].
  destruct (strict_eq (cssPreprocessor cfg) "less");
    [|destruct (strict_eq (cssPreprocessor cfg) "scss")]; by gen_step.
Qed.

(** What step 4 as a whole leaves alone. *)
Lemma features_frame ctx :
  let ctx' := (features ctx).1 in
  config ctx' = config ctx
  ∧ packageJson ctx' =
      set_devDependencies (devDependencies (packageJson ctx')) (packageJson ctx)
  ∧ ∀ k, k ≠ "src/styles/global.css" → k ≠ "uno.config.ts" →
      files ctx' !! k = files ctx !! k.
Proof.
  cbv zeta.
  pose proof (generateCssFramework_frame ctx) as (Hc1 & _ & Hp1 & Hf1).
  cbv zeta in Hc1, Hp1, Hf1.
  assert (Hmid :
    let c1 :=
      if truthy (cssFramework (config ctx))
         && negb (strict_eq (cssFramework (config ctx)) "none")
      then (generateCssFramework ctx).1 else ctx in
    config c1 = config ctx
    ∧ packageJson c1 = set_devDependencies (devDependencies (packageJson c1)) (packageJson ctx)
    ∧ ∀ k, k ≠ "src/styles/global.css" → k ≠ "uno.config.ts" →
        files c1 !! k = files ctx !! k).
  { cbv zeta. destruct (truthy _ && negb _); [done|].
    repeat split; try done. by destruct (packageJson ctx). }
  cbv zeta in Hmid. destruct Hmid as (Hc & Hp & Hf).
  destruct (features_cases ctx) as [-> | ->]; [done|].
  match goal with |- context [generateCssPreprocessor ?c] =>
    pose proof (generateCssPreprocessor_frame c) as (Hc2 & _ & Hf2 & _ & _ & Hp2 & _)
  end.
  cbv zeta in Hc2, Hf2, Hp2.
  repeat split.
  - congruence.
  - rewrite Hp2, Hp. by destruct (packageJson ctx).
  - intros k ? ?. rewrite Hf2. by apply Hf.
Qed.

(** The paths steps 1 and 2 can write. *)
Lemma scaffoldFiles_changed cfg ext (fs : gmap string string) path :
  scaffoldFiles cfg ext fs !! path ≠ fs !! path →
  path ∈ [ "src/app" +:+ ext +:+ "x"; "src/main" +:+ ext +:+ "x";
           "src/components/counter." +:+ ext +:+ "x"; "src/vite-env.d.ts";
           "public/favicon.svg"; "index.html"; "README.md"; ".gitignore" ].
Proof.
  intros Hne. apply dec_stable. intros Hnot. apply Hne. clear Hne.
  repeat (apply not_elem_of_cons in Hnot; destruct Hnot as [? Hnot]).
  unfold scaffoldFiles. cbv zeta.
  destruct (is_typescript (language cfg));
    by rewrite !lookup_insert_ne by congruence.
Qed.

End GeneratorFacts.

(** ** The editor *)

(** [addImport] and [addVitePlugin] on the fragments of each target. *)
Lemma fragments_addImport_same target statement e :
  imports (fragments (Editor_addImport target statement e) target)
  = if bool_decide (statement ∈ imports (fragments e target))
    then imports (fragments e target)
    else imports (fragments e target) ++ [statement].
Proof.
  unfold Editor_addImport. cbv zeta. case_bool_decide; [done|].
  unfold fragments at 1. cbn [targets]. by rewrite lookup_insert_eq.
Qed.

Lemma fragments_addImport_other target target' statement e :
  target ≠ target' →
  fragments (Editor_addImport target statement e) target' = fragments e target'.
Proof.
  intros Hne. unfold Editor_addImport. cbv zeta. case_bool_decide; [done|].
  unfold fragments at 1. cbn [targets]. by rewrite lookup_insert_ne.
Qed.

Lemma plugins_addImport target target' statement e :
  plugins (fragments (Editor_addImport target statement e) target')
  = plugins (fragments e target').
Proof.
  destruct (decide (target = target')) as [<-|Hne];
    [|by rewrite fragments_addImport_other].
  unfold Editor_addImport. cbv zeta. case_bool_decide; [done|].
  unfold fragments at 1. cbn [targets]. by rewrite lookup_insert_eq.
Qed.

Lemma fragments_addVitePlugin_same target expression e :
  plugins (fragments (Editor_addVitePlugin target expression e) target)
  = if bool_decide (expression ∈ plugins (fragments e target))
    then plugins (fragments e target)
    else plugins (fragments e target) ++ [expression].
Proof.
  unfold Editor_addVitePlugin. cbv zeta. case_bool_decide; [done|].
  unfold fragments at 1. cbn [targets]. by rewrite lookup_insert_eq.
Qed.

Lemma fragments_addVitePlugin_other target target' expression e :
  target ≠ target' →
  fragments (Editor_addVitePlugin target expression e) target' = fragments e target'.
Proof.
  intros Hne. unfold Editor_addVitePlugin. cbv zeta. case_bool_decide; [done|].
  unfold fragments at 1. cbn [targets]. by rewrite lookup_insert_ne.
Qed.

Lemma imports_addVitePlugin target target' expression e :
  imports (fragments (Editor_addVitePlugin target expression e) target')
  = imports (fragments e target').
Proof.
  destruct (decide (target = target')) as [<-|Hne];
    [|by rewrite fragments_addVitePlugin_other].
  unfold Editor_addVitePlugin. cbv zeta. case_bool_decide; [done|].
  unfold fragments at 1. cbn [targets]. by rewrite lookup_insert_eq.
Qed.

Lemma elem_of_addImport target statement e :
  statement ∈ imports (fragments (Editor_addImport target statement e) target).
Proof.
  rewrite fragments_addImport_same. case_bool_decide; [done|].
  apply elem_of_app. right. by apply list_elem_of_singleton.
Qed.

Lemma elem_of_addVitePlugin target expression e :
  expression ∈ plugins (fragments (Editor_addVitePlugin target expression e) target).
Proof.
  rewrite fragments_addVitePlugin_same. case_bool_decide; [done|].
  apply elem_of_app. right. by apply list_elem_of_singleton.
Qed.

(** ** Two passes on the same inputs *)

Section Determinism.
Context {V M : Type} `{!AddImport V, !AddVitePlugin V, !AddImport M}.
Implicit Types ctx : ProjectContext V M.

(** Each step of the generator is deterministic in the sense of
    [deterministic], and so is a sequence of such steps. *)
Lemma same_inputs_refl ctx : same_inputs ctx ctx.
Proof. by repeat split. Qed.

Lemma deterministic_ret {A} (a : A) : deterministic (V:=V) (M:=M) (mret a).
Proof. by intros c1 c2 H. Qed.

Lemma deterministic_throw {A} (e : HanaError) :
  deterministic (V:=V) (M:=M) (A:=A) (mthrow e).
Proof. by intros c1 c2 H. Qed.

Lemma deterministic_bind {A B} (m : Gen A) (f : A → Gen B) :
  deterministic (V:=V) (M:=M) m → (∀ a, deterministic (f a)) →
  deterministic (m ≫= f).
Proof.
  intros Hm Hf c1 c2 H. destruct (Hm c1 c2 H) as [Hctx Hres].
  unfold mbind, Gen_bind.
  destruct (m c1) as [c1' r1], (m c2) as [c2' r2]. cbn [fst snd] in *. subst r2.
  destruct r1 as [a|e]; [by apply Hf|done].
Qed.

Lemma deterministic_if {A} (b : bool) (m1 m2 : Gen A) :
  deterministic (V:=V) (M:=M) m1 → deterministic m2 →
  deterministic (if b then m1 else m2).
Proof. by destruct b. Qed.

Lemma deterministic_when (b : bool) (m : Gen unit) :
  deterministic (V:=V) (M:=M) m → deterministic (when b m).
Proof. intros Hm. apply deterministic_if; [done|apply deterministic_ret]. Qed.

Lemma deterministic_writeFile path content :
  deterministic (V:=V) (M:=M) (writeFile path content).
Proof.
  intros c1 c2 (Hc & He & Hf & Hp & Hv & Hm). unfold writeFile, same_inputs.
  cbn [fst snd config fileExtension files packageJson viteConfigEditor mainEditor].
  by rewrite Hf.
Qed.

Lemma deterministic_updatePackageJson f :
  deterministic (V:=V) (M:=M) (updatePackageJson f).
Proof.
  intros c1 c2 (Hc & He & Hf & Hp & Hv & Hm). unfold updatePackageJson, same_inputs.
  cbn [fst snd config fileExtension files packageJson viteConfigEditor mainEditor].
  by rewrite Hp.
Qed.

Lemma deterministic_callViteConfigEditor method (f g : V → V) :
  ∀ c1 c2 : ProjectContext V M, same_inputs c1 c2 →
    same_inputs (callViteConfigEditor method f c1).1 (callViteConfigEditor method g c2).1
    ∧ (callViteConfigEditor method f c1).2 = (callViteConfigEditor method g c2).2.
Proof.
  intros c1 c2 (Hc & He & Hf & Hp & Hv & Hm). unfold callViteConfigEditor, same_inputs.
  destruct (viteConfigEditor c1) as [e1|] eqn:E1, (viteConfigEditor c2) as [e2|] eqn:E2;
    cbn [fst snd config fileExtension files packageJson viteConfigEditor mainEditor].
  - repeat split; try done; try (by eexists); tauto.
  - destruct Hv as [Hv _]. by destruct Hv.
  - destruct Hv as [_ Hv]. by destruct Hv.
  - rewrite E1, E2. repeat split; try done; tauto.
Qed.

Lemma deterministic_callMainEditor method (f g : M → M) :
  ∀ c1 c2 : ProjectContext V M, same_inputs c1 c2 →
    same_inputs (callMainEditor method f c1).1 (callMainEditor method g c2).1
    ∧ (callMainEditor method f c1).2 = (callMainEditor method g c2).2.
Proof.
  intros c1 c2 (Hc & He & Hf & Hp & Hv & Hm). unfold callMainEditor, same_inputs.
  destruct (mainEditor c1) as [e1|] eqn:E1, (mainEditor c2) as [e2|] eqn:E2;
    cbn [fst snd config fileExtension files packageJson viteConfigEditor mainEditor].
  - repeat split; try done; try (by eexists); tauto.
  - destruct Hm as [Hm _]. by destruct Hm.
  - destruct Hm as [_ Hm]. by destruct Hm.
  - rewrite E1, E2. repeat split; try done; tauto.
Qed.

Ltac deterministic_steps :=
  repeat first
    [ apply deterministic_bind; [|intros []]
    | apply deterministic_when
    | apply deterministic_if
    | apply deterministic_ret
    | apply deterministic_throw
    | apply deterministic_writeFile
    | apply deterministic_updatePackageJson
    | exact (deterministic_callViteConfigEditor _ _ _)
    | exact (deterministic_callMainEditor _ _ _) ].

(** A call that starts by reading the configuration and the file extension
    off its context runs the same program in both contexts. *)
Ltac deterministic_program c1 c2 H :=
  let Hc := fresh in let He := fresh in
  pose proof H as (Hc & He & _); cbv zeta; rewrite ?Hc, ?He;
  match goal with
  | |- same_inputs (?p c1).1 (?p c2).1 ∧ _ =>
      let Hd := fresh in
      enough (deterministic p) as Hd by exact (Hd c1 c2 H)
  end;
  deterministic_steps.

Lemma deterministic_generateCssFramework :
  deterministic (V:=V) (M:=M) generateCssFramework.
Proof. intros c1 c2 H. unfold generateCssFramework. deterministic_program c1 c2 H. Qed.

Lemma deterministic_generateCssPreprocessor :
  deterministic (V:=V) (M:=M) generateCssPreprocessor.
Proof. intros c1 c2 H. unfold generateCssPreprocessor. deterministic_program c1 c2 H. Qed.

Lemma deterministic_generate : deterministic (V:=V) (M:=M) generate.
Proof.
  intros c1 c2 H. unfold generate. deterministic_program c1 c2 H.
  - apply deterministic_generateCssFramework.
  - apply deterministic_generateCssPreprocessor.
Qed.

End Determinism.

(** ** Runs of the generator *)

(** Without the main editor the tailwindcss branch throws at its last call,
    after the files and the dependencies are in place. *)
Example tailwindcss_without_main_editor :
  let ctx :=
    mkContext (reactConfig typescript (Some "vite") (Some "tailwindcss"))
      "/srv/app" "/srv" emptyManifest ∅ ".ts" (Some newEditor) (None : option Editor) in
  (generate ctx).2 = Throw (TypeError "addImport")
  ∧ files (generate ctx).1 !! "src/styles/global.css"
    = Some (quoted "@import ~tailwindcss~;").
Proof. split; vm_compute; reflexivity. Qed.

(** A javascript project with unocss gets its configuration file under the
    name [uno.config.ts]; it is at the root, not a path under [src/]. *)
Example javascript_unocss_files :
  (generate javascriptContext).2 = Normal ()
  ∧ files (generate javascriptContext).1 !! "uno.config.ts" = Some generateUnoCssConfig
  ∧ files (generate javascriptContext).1 !! "src/app.jsx" = Some generateAppFile
  ∧ files (generate javascriptContext).1 !! "src/vite-env.d.ts" = None.
Proof. repeat split; vm_compute; reflexivity. Qed.

Example source_paths :
  map is_source_path
    ["src/app.tsx"; "src/components/counter..tsx"; "src/vite-env.d.ts";
     "src/styles/global.css"; "uno.config.ts"; "index.html"]
  = [true; true; true; false; false; false].
Proof. reflexivity. Qed.

(** The main file imports the app under the path it has from the project
    root. *)
Example main_file_of_tailwindContext :
  files (generate tailwindContext).1 !! "src/main.tsx"
  = Some (generateMainFile "src/app.tsx").
Proof. vm_compute. reflexivity. Qed.

(** ** The claims about the React generator *)

Section GeneratorClaims.
Context {V M : Type} `{!AddImport V, !AddVitePlugin V, !AddImport M}.
Implicit Types ctx : ProjectContext V M.

(** C2: for every configuration whose projectType is not 'react' (a 'vue' or
    'node' project, or no project type at all), the React generator throws the
    validation error built from the offending projectType value and performs
    no mutation: the file map and the manifest, and the whole context, are
    exactly as they were before the call. *)
Theorem generate_rejects_other_project_types ctx :
  projectType (config ctx) ≠ Some react →
  (generate ctx).2 = Throw (validation (invalidProjectType (projectType (config ctx))))
  ∧ files (generate ctx).1 = files ctx
  ∧ packageJson (generate ctx).1 = packageJson ctx
  ∧ (generate ctx).1 = ctx.
Proof.
  intros Hne. rewrite generate_not_react by by apply not_react_true. done.
Qed.


(** C5 (what the code does instead): the counter component is written under
    'src/components/counter.' followed by the file extension and x.  The file
    extension starts with a dot of its own, so the path has two dots,
    'src/components/counter..tsx' or 'src/components/counter..jsx', and the
    path with a single dot is never written. *)
Theorem counter_path_has_two_dots ctx lang :
  projectType (config ctx) = Some react →
  fileExtension ctx = getFileExtension lang →
  vite_ready ctx →
  let ctx' := (generate ctx).1 in
  let doubled :=
    match lang with
    | typescript => "src/components/counter..tsx"
    | javascript => "src/components/counter..jsx"
    end in
  let single :=
    match lang with
    | typescript => "src/components/counter.tsx"
    | javascript => "src/components/counter.jsx"
    end in
  files ctx' !! doubled = Some generateCounterFile
  ∧ files ctx' !! single = files ctx !! single.
Proof.
  intros Hp He Hr. cbv zeta.
  destruct (generate_ready ctx Hp Hr) as [editor ->].
  pose proof (features_frame (scaffold editor ctx)) as (_ & _ & Hfiles).
  cbv zeta in Hfiles. cbn [scaffold files config fileExtension] in Hfiles.
  rewrite He in Hfiles.
  rewrite !Hfiles by (destruct lang; discriminate). unfold scaffoldFiles. cbv zeta.
  destruct lang, (is_typescript (language (config ctx)));
    cbn [getFileExtension]; split; by files_lookup.
Qed.

(** C7: for every react configuration whose targetDir is undefined or the empty
    string, the generator uses the default project name: the manifest name is
    'hana-project', and README.md is the README template for that name, which
    begins with '# hana-project'. *)
Theorem default_project_name ctx :
  projectType (config ctx) = Some react →
  targetDir (config ctx) = None ∨ targetDir (config ctx) = Some "" →
  vite_ready ctx →
  let ctx' := (generate ctx).1 in
  name (packageJson ctx') = "hana-project"
  ∧ files ctx' !! "README.md"
    = Some (generateReadmeTemplate "react" "hana-project" (Some "A React project"))
  ∧ ∃ readme, files ctx' !! "README.md" = Some readme
      ∧ String.prefix "# hana-project" readme = true.
Proof.
  intros Hp Ht Hr. cbv zeta.
  destruct (generate_ready ctx Hp Hr) as [editor ->].
  pose proof (features_frame (scaffold editor ctx)) as (_ & Hpkg & Hfiles).
  cbv zeta in Hpkg, Hfiles.
  assert (Hname : or_else (targetDir (config ctx)) "hana-project" = "hana-project")
    by (by destruct Ht as [-> | ->]).
  assert (Hreadme : files (features (scaffold editor ctx)).1 !! "README.md"
    = Some (generateReadmeTemplate "react" "hana-project" (Some "A React project"))).
  { rewrite Hfiles by discriminate. unfold scaffold, scaffoldFiles. cbn [files config].
    rewrite Hname, Hp. cbn [projectType_text projectType_name].
    destruct (is_typescript _); rewrite lookup_insert_ne by discriminate;
      apply lookup_insert_eq. }
  repeat split.
  - rewrite Hpkg. unfold scaffold, scaffoldManifest. ctx_simpl. done.
  - done.
  - eexists. split; [done|]. reflexivity.
Qed.

(** C9: for every react configuration with cssFramework 'tailwindcss' and a
    buildTool other than 'vite' (or none), the generator sets the
    devDependency tailwindcss to '^4.1.11', leaves '@tailwindcss/vite' and the
    file 'src/styles/global.css' as they were, leaves both editors untouched
    whatever their implementation, and completes normally. *)
Theorem tailwindcss_without_vite ctx :
  projectType (config ctx) = Some react →
  cssFramework (config ctx) = Some "tailwindcss" →
  buildTool (config ctx) ≠ Some "vite" →
  let ctx' := (generate ctx).1 in
  get_dep "tailwindcss" (devDependencies (packageJson ctx')) = Some "^4.1.11"
  ∧ get_dep "@tailwindcss/vite" (devDependencies (packageJson ctx'))
    = get_dep "@tailwindcss/vite" (devDependencies (packageJson ctx))
  ∧ files ctx' !! "src/styles/global.css" = files ctx !! "src/styles/global.css"
  ∧ viteConfigEditor ctx' = viteConfigEditor ctx
  ∧ mainEditor ctx' = mainEditor ctx
  ∧ (generate ctx).2 = Normal ().
Proof.
  intros Hp Hc Hb. apply strict_eq_false in Hb. cbv zeta.
  rewrite (generate_no_vite ctx Hp Hb).
  set (X := scaffold (viteConfigEditor ctx) ctx).
  pose proof (generateCssFramework_tailwindcss_other X Hp Hc Hb) as Hfw.
  unfold features. change (config X) with (config ctx). rewrite Hc.
  change (truthy _ && negb _) with true. unfold when, mbind, Gen_bind. cbv iota.
  rewrite Hfw. clear Hfw.
  match goal with |- context [(if _ then _ else _) ?c] => set (c1 := c) end.
  pose proof (generateCssPreprocessor_frame c1) as (_ & _ & Hf & Hve & Hme & _ & Hk).
  pose proof (generateCssPreprocessor_normal c1 Hp) as Hn.
  cbv zeta in Hf, Hve, Hme, Hk.
  assert (Hbase :
    get_dep "tailwindcss" (devDependencies (packageJson c1)) = Some "^4.1.11"
    ∧ get_dep "@tailwindcss/vite" (devDependencies (packageJson c1))
      = get_dep "@tailwindcss/vite" (devDependencies (packageJson ctx))
    ∧ files c1 !! "src/styles/global.css" = files ctx !! "src/styles/global.css").
  { unfold c1, X, scaffold, scaffoldManifest, scaffoldFiles. ctx_simpl.
    rewrite get_put_dep, get_put_dep_ne by discriminate.
    repeat split. cbv zeta.
    destruct (is_typescript _); by files_lookup. }
  destruct Hbase as (Ht & Htv & Hg).
  destruct (truthy (cssPreprocessor (config ctx))).
  - rewrite Hk, Hk, Hf, Hve, Hme by discriminate. done.
  - unfold mret, Gen_ret. done.
Qed.

(** C8: two passes of the React generator on contexts with the same inputs
    (configuration, file extension, file map, manifest, and the same editors
    present) end with identical file maps and identical manifests, and complete
    the same way, even when the directories and the contents of the editors
    differ.  The template functions are functions of their arguments: equal
    arguments give the same string. *)
Theorem generation_is_deterministic (c1 c2 : ProjectContext V M) :
  config c1 = config c2 →
  fileExtension c1 = fileExtension c2 →
  files c1 = files c2 →
  packageJson c1 = packageJson c2 →
  (is_Some (viteConfigEditor c1) ↔ is_Some (viteConfigEditor c2)) →
  (is_Some (mainEditor c1) ↔ is_Some (mainEditor c2)) →
  (files (generate c1).1 = files (generate c2).1
   ∧ packageJson (generate c1).1 = packageJson (generate c2).1
   ∧ (generate c1).2 = (generate c2).2)
  ∧ (∀ a b, a = b → generateMainFile a = generateMainFile b)
  ∧ (∀ t t' n n' d d', t = t' → n = n' → d = d' →
       generateReadmeTemplate t n d = generateReadmeTemplate t' n' d')
  ∧ (∀ t t' p p', t = t' → p = p' → generateHtmlTemplate t p = generateHtmlTemplate t' p').
Proof.
  intros Hc He Hf Hp Hv Hm.
  destruct (deterministic_generate c1 c2) as [(_ & _ & Hf' & Hp' & _) Hr];
    [unfold same_inputs; tauto|].
  repeat split; try done; by intros; subst.
Qed.
End GeneratorClaims.

Section TailwindScenario.
Context {M : Type} `{!AddImport M}.

(** C1: for every configuration with projectType 'react', language
    'typescript', buildTool 'vite' and cssFramework 'tailwindcss', in a context
    that carries the file extension of the language and a build-tool editor,
    the file map after the generator contains 'src/app.tsx', 'src/main.tsx',
    'src/vite-env.d.ts' and 'src/styles/global.css', the latter with exactly
    the content [@import "tailwindcss";]; the devDependencies tailwindcss and
    '@tailwindcss/vite' are both '^4.1.11'; and the fragment store of the
    build-tool editor holds, for the target 'viteConfig', the import of
    tailwindcss from '@tailwindcss/vite' and the plugin expression
    'tailwindcss()': the editor is the one it received after the calls
    addImport and addVitePlugin for react and then for tailwindcss. *)
Theorem react_typescript_vite_tailwindcss (ctx : ProjectContext Editor M) (ve : Editor) :
  projectType (config ctx) = Some react →
  language (config ctx) = Some typescript →
  buildTool (config ctx) = Some "vite" →
  cssFramework (config ctx) = Some "tailwindcss" →
  fileExtension ctx = getFileExtension typescript →
  viteConfigEditor ctx = Some ve →
  let ctx' := (generate ctx).1 in
  files ctx' !! "src/app.tsx" = Some generateAppFile
  ∧ files ctx' !! "src/main.tsx" = Some (generateMainFile "src/app.tsx")
  ∧ files ctx' !! "src/vite-env.d.ts" = Some generateViteEnvFile
  ∧ files ctx' !! "src/styles/global.css" = Some (quoted "@import ~tailwindcss~;")
  ∧ get_dep "tailwindcss" (devDependencies (packageJson ctx')) = Some "^4.1.11"
  ∧ get_dep "@tailwindcss/vite" (devDependencies (packageJson ctx')) = Some "^4.1.11"
  ∧ ∃ ve', viteConfigEditor ctx' = Some ve'
      ∧ ve' = addVitePlugin "viteConfig" "tailwindcss()"
                (addImport "viteConfig" "import tailwindcss from '@tailwindcss/vite'"
                   (reactPlugin ve))
      ∧ "import tailwindcss from '@tailwindcss/vite'" ∈ imports (fragments ve' "viteConfig")
      ∧ "tailwindcss()" ∈ plugins (fragments ve' "viteConfig").
Proof.
  intros Hp Hl Hb Hc He Hv ctx'. subst ctx'.
  rewrite (generate_vite ctx ve) by (done || by rewrite Hb).
  set (X := scaffold _ ctx).
  pose proof (generateCssFramework_tailwindcss_vite X (reactPlugin ve) Hp Hc Hb eq_refl)
    as (Hfiles & Hdeps & Hed).
  cbv zeta in Hfiles, Hdeps, Hed.
  assert (Hbase : ∀ c : ProjectContext Editor M,
    files c = files (generateCssFramework X).1 →
    get_dep "tailwindcss" (devDependencies (packageJson c)) = Some "^4.1.11" →
    get_dep "@tailwindcss/vite" (devDependencies (packageJson c)) = Some "^4.1.11" →
    viteConfigEditor c = viteConfigEditor (generateCssFramework X).1 →
    files c !! "src/app.tsx" = Some generateAppFile
    ∧ files c !! "src/main.tsx" = Some (generateMainFile "src/app.tsx")
    ∧ files c !! "src/vite-env.d.ts" = Some generateViteEnvFile
    ∧ files c !! "src/styles/global.css" = Some (quoted "@import ~tailwindcss~;")
    ∧ get_dep "tailwindcss" (devDependencies (packageJson c)) = Some "^4.1.11"
    ∧ get_dep "@tailwindcss/vite" (devDependencies (packageJson c)) = Some "^4.1.11"
    ∧ ∃ ve', viteConfigEditor c = Some ve'
      ∧ ve' = addVitePlugin "viteConfig" "tailwindcss()"
                (addImport "viteConfig" "import tailwindcss from '@tailwindcss/vite'"
                   (reactPlugin ve))
      ∧ "import tailwindcss from '@tailwindcss/vite'" ∈ imports (fragments ve' "viteConfig")
      ∧ "tailwindcss()" ∈ plugins (fragments ve' "viteConfig")).
  { intros c Hf Ht Htv Hve. rewrite Hf, Hfiles, Hve, Hed.
    unfold X, scaffold, scaffoldFiles. cbn [files config fileExtension].
    rewrite Hl, He. cbn [is_typescript getFileExtension].
    repeat split; try done; [files_lookup; done ..|].
    eexists. split; [done|]. split; [done|]. split.
    - change (@addVitePlugin Editor _) with Editor_addVitePlugin.
      change (@addImport Editor _) with Editor_addImport.
      rewrite imports_addVitePlugin. apply elem_of_addImport.
    - apply elem_of_addVitePlugin. }
  pose proof (features_cases X) as Hcases. cbv zeta in Hcases.
  change (config X) with (config ctx) in Hcases. rewrite Hc in Hcases.
  change (truthy _ && negb _) with true in Hcases. cbv iota in Hcases.
  destruct Hcases as [-> | ->].
  - apply Hbase; try done.
    + rewrite Hdeps, get_put_dep_ne by discriminate. apply get_put_dep.
    + rewrite Hdeps. apply get_put_dep.
  - pose proof (generateCssPreprocessor_frame (generateCssFramework X).1)
      as (_ & _ & Hf & Hve & _ & _ & Hk). cbv zeta in Hf, Hve, Hk.
    apply Hbase; try done.
    + rewrite Hk, Hdeps, get_put_dep_ne by discriminate. apply get_put_dep.
    + rewrite Hk, Hdeps by discriminate. apply get_put_dep.
Qed.
End TailwindScenario.

Section UnoCssScenario.
Context {V : Type} `{!AddImport V, !AddVitePlugin V}.

(** C6: for every configuration with projectType 'react', language
    'typescript', buildTool 'vite' and cssFramework 'unocss', in a context
    with both editors, the file map after the generator contains
    'uno.config.ts', the devDependency unocss is '^66.3.3', and the import set
    of the main-entry editor for the target 'main' contains the string
    [import 'virtual:uno.css']: the editor is the one it received after the
    call addImport('main', ...) with that string. *)
Theorem react_typescript_vite_unocss (ctx : ProjectContext V Editor) (ve : V) (me : Editor) :
  projectType (config ctx) = Some react →
  language (config ctx) = Some typescript →
  buildTool (config ctx) = Some "vite" →
  cssFramework (config ctx) = Some "unocss" →
  viteConfigEditor ctx = Some ve →
  mainEditor ctx = Some me →
  let ctx' := (generate ctx).1 in
  files ctx' !! "uno.config.ts" = Some generateUnoCssConfig
  ∧ get_dep "unocss" (devDependencies (packageJson ctx')) = Some "^66.3.3"
  ∧ ∃ me', mainEditor ctx' = Some me'
      ∧ me' = addImport "main" "import 'virtual:uno.css'" me
      ∧ "import 'virtual:uno.css'" ∈ imports (fragments me' "main").
Proof.
  intros Hp Hl Hb Hc Hv Hm. cbv zeta.
  rewrite (generate_vite ctx ve) by (done || by rewrite Hb).
  set (X := scaffold _ ctx).
  pose proof (generateCssFramework_unocss_vite X (reactPlugin ve) me Hp Hc Hb eq_refl Hm)
    as (Hfiles & Hdeps & Hed).
  cbv zeta in Hfiles, Hdeps, Hed.
  pose proof (features_cases X) as Hcases. cbv zeta in Hcases.
  change (config X) with (config ctx) in Hcases. rewrite Hc in Hcases.
  change (truthy _ && negb _) with true in Hcases. cbv iota in Hcases.
  destruct Hcases as [-> | ->].
  - rewrite Hfiles, Hdeps, Hed, get_put_dep, lookup_insert_eq.
    repeat split. eexists. split; [done|]. split; [done|]. apply elem_of_addImport.
  - pose proof (generateCssPreprocessor_frame (generateCssFramework X).1)
      as (_ & _ & Hf & _ & Hme & _ & Hk). cbv zeta in Hf, Hme, Hk.
    rewrite Hf, Hme, Hk, Hfiles, Hdeps, Hed, get_put_dep, lookup_insert_eq by discriminate.
    repeat split. eexists. split; [done|]. split; [done|]. apply elem_of_addImport.
Qed.
End UnoCssScenario.

(** ** Adding the same import again *)










(** ** [renderTemplate] *)

(** ** Runs of [renderTemplate] *)

Example renderTemplate_whitespace :
  renderTemplate "Hello {{ name }}, {{name}}! {{  name}} {{nam}}" [("name", "World")]
  = Some "Hello World, World! World {{nam}}".
Proof. reflexivity. Qed.

Example renderTemplate_entries_in_order :
  renderTemplate "{{a}} and {{b}}" [("a", "{{b}}"); ("b", "c")] = Some "c and c".
Proof. reflexivity. Qed.

Example renderTemplate_replacement_patterns :
  renderTemplate "a{{k}}b" [("k", "[$`|$&|$'|$1|$]")] = Some "a[a|{{k}}|b|$1|$]b".
Proof. reflexivity. Qed.

Example renderTemplate_syntax_character :
  renderTemplate "{{a.b}}" [("a.b", "x")] = None.
Proof. reflexivity. Qed.

(** *** Strings *)

Lemma append_nil_l (s : string) : "" +:+ s = s.
Proof. reflexivity. Qed.

Lemma append_cons (c : ascii) (s t : string) : String c s +:+ t = String c (s +:+ t).
Proof. reflexivity. Qed.

Lemma append_assoc (s t u : string) : (s +:+ t) +:+ u = s +:+ t +:+ u.
Proof.
  induction s as [|c s IH]; [done|]. by rewrite !append_cons, IH.
Qed.

Lemma length_append (s t : string) :
  String.length (s +:+ t) = String.length s + String.length t.
Proof.
  induction s as [|c s IH]; [done|]. rewrite append_cons. cbn [String.length].
  by rewrite IH.
Qed.

(** *** The matcher: what a match is, and that a placeholder is matched *)

Lemma match_literal_append lit k rest :
  match_literal lit k (lit +:+ rest) = (λ n, String.length lit + n) <$> k rest.
Proof.
  induction lit as [|c lit IH]; cbn [match_literal].
  - rewrite append_nil_l. by destruct (k rest).
  - rewrite append_cons, Ascii.eqb_refl, IH. by destruct (k rest).
Qed.

Lemma match_literal_Some lit k text n :
  match_literal lit k text = Some n →
  ∃ rest m, text = lit +:+ rest ∧ k rest = Some m ∧ n = String.length lit + m.
Proof.
  revert text n. induction lit as [|c lit IH]; intros text n H; cbn [match_literal] in H.
  - by exists text, n.
  - destruct text as [|d text]; [done|].
    destruct (Ascii.eqb c d) eqn:E; [|done]. apply Ascii.eqb_eq in E as ->.
    destruct (match_literal lit k text) as [n'|] eqn:E2; [|done].
    injection H as <-.
    destruct (IH _ _ E2) as (rest & m & -> & Hk & ->). by exists rest, m.
Qed.

Lemma match_spaces_Some k text n :
  match_spaces k text = Some n →
  ∃ ws rest m,
    spaces ws = true ∧ text = ws +:+ rest ∧ k rest = Some m
    ∧ n = String.length ws + m.
Proof.
  revert n. induction text as [|c text IH]; intros n H; cbn [match_spaces] in H.
  - by exists "", "", n.
  - destruct (is_space c) eqn:Ec; [|by exists "", (String c text), n].
    destruct (match_spaces k text) as [n'|] eqn:E; cbn in H;
      [|by exists "", (String c text), n].
    injection H as <-.
    destruct (IH _ eq_refl) as (ws & rest & m & Hws & -> & Hk & ->).
    exists (String c ws), rest, m. cbn [spaces]. by rewrite Ec, Hws.
Qed.

Lemma match_spaces_complete k ws rest :
  spaces ws = true → is_Some (k rest) → is_Some (match_spaces k (ws +:+ rest)).
Proof.
  induction ws as [|c ws IH]; intros Hws Hk.
  - rewrite append_nil_l. destruct rest as [|d rest]; cbn [match_spaces]; [done|].
    destruct (is_space d); [|done].
    destruct (match_spaces k rest); cbn; [by eexists|done].
  - cbn [spaces] in Hws. apply andb_true_iff in Hws as [Hc Hws].
    rewrite append_cons. cbn [match_spaces]. rewrite Hc.
    destruct (IH Hws Hk) as [n ->]. by eexists.
Qed.

Lemma placeholder_unfold ws1 key ws2 rest :
  placeholder ws1 key ws2 +:+ rest = "{{" +:+ ws1 +:+ key +:+ ws2 +:+ "}}" +:+ rest.
Proof. unfold placeholder. by rewrite !append_assoc. Qed.

Lemma match_placeholder_complete key text :
  placeholder_at_start key text → is_Some (match_placeholder key text).
Proof.
  intros (ws1 & ws2 & rest & H1 & H2 & ->). rewrite placeholder_unfold.
  unfold match_placeholder. rewrite match_literal_append. apply fmap_is_Some.
  apply match_spaces_complete; [done|].
  rewrite match_literal_append. apply fmap_is_Some.
  apply match_spaces_complete; [done|].
  rewrite match_literal_append. by eexists.
Qed.

Lemma match_placeholder_sound key text n :
  match_placeholder key text = Some n →
  ∃ ws1 ws2 rest,
    spaces ws1 = true ∧ spaces ws2 = true
    ∧ text = placeholder ws1 key ws2 +:+ rest
    ∧ n = String.length (placeholder ws1 key ws2).
Proof.
  unfold match_placeholder. intros H.
  apply match_literal_Some in H as (r1 & n1 & -> & H & ->).
  apply match_spaces_Some in H as (ws1 & r2 & n2 & Hws1 & -> & H & ->).
  apply match_literal_Some in H as (r3 & n3 & -> & H & ->).
  apply match_spaces_Some in H as (ws2 & r4 & n4 & Hws2 & -> & H & ->).
  apply match_literal_Some in H as (rest & n5 & -> & H & ->).
  injection H as <-.
  exists ws1, ws2, rest. rewrite placeholder_unfold. repeat split; try done.
  unfold placeholder. rewrite !length_append. cbn [String.length]. lia.
Qed.

(** *** Where a placeholder ends

    Neither whitespace nor a literal key holds a closing brace, so a
    placeholder ends at the first one: two placeholders that start at the same
    place are the same. *)

Lemma brace_free_append s t :
  brace_free s = true → brace_free t = true → brace_free (s +:+ t) = true.
Proof.
  induction s as [|c s IH]; [done|]. cbn [brace_free]. rewrite append_cons.
  cbn [brace_free]. intros [-> Hs]%andb_true_iff Ht. by rewrite IH.
Qed.

Lemma spaces_brace_free ws : spaces ws = true → brace_free ws = true.
Proof.
  induction ws as [|c ws IH]; [done|]. cbn [spaces brace_free].
  intros [Hc Hws]%andb_true_iff. rewrite IH by done.
  destruct (Ascii.eqb_spec c "}") as [-> | _]; [by vm_compute in Hc|done].
Qed.

Lemma literal_pattern_brace_free key : literal_pattern key = true → brace_free key = true.
Proof.
  induction key as [|c key IH]; [done|]. cbn [literal_pattern brace_free].
  intros [Hc Hkey]%andb_true_iff. rewrite IH by done.
  destruct (Ascii.eqb_spec c "}") as [-> | _]; [by vm_compute in Hc|done].
Qed.

Lemma closing_braces_unique m m' r r' :
  brace_free m = true → brace_free m' = true →
  m +:+ "}}" +:+ r = m' +:+ "}}" +:+ r' → m = m' ∧ r = r'.
Proof.
  revert m'. induction m as [|c m IH]; intros [|c' m'] Hm Hm' H;
    rewrite ?append_nil_l, ?append_cons in H.
  - by injection H.
  - injection H as <- _. by vm_compute in Hm'.
  - injection H as -> _. by vm_compute in Hm.
  - injection H as -> H. cbn [brace_free] in Hm, Hm'.
    apply andb_true_iff in Hm as [_ Hm]. apply andb_true_iff in Hm' as [_ Hm'].
    destruct (IH _ Hm Hm' H) as [-> ->]. done.
Qed.

Lemma placeholder_unique key ws1 ws2 rest ws1' ws2' rest' :
  literal_pattern key = true →
  spaces ws1 = true → spaces ws2 = true → spaces ws1' = true → spaces ws2' = true →
  placeholder ws1 key ws2 +:+ rest = placeholder ws1' key ws2' +:+ rest' →
  placeholder ws1 key ws2 = placeholder ws1' key ws2' ∧ rest = rest'.
Proof.
  intros Hkey H1 H2 H1' H2' H. rewrite !placeholder_unfold in H.
  injection H as H.
  rewrite <- !(append_assoc key), <- !(append_assoc ws1), <- !(append_assoc ws1') in H.
  apply closing_braces_unique in H as [H ->];
    auto using brace_free_append, spaces_brace_free, literal_pattern_brace_free.
  split; [|done]. unfold placeholder.
  rewrite <- !(append_assoc key), <- !(append_assoc ws1), <- !(append_assoc ws1').
  by rewrite H.
Qed.
(** *** Replacement *)

Lemma getSubstitution_dollar_free matched before after value :
  dollar_free value = true → getSubstitution matched before after value = value.
Proof.
  induction value as [|c value IH]; [done|]. cbn [dollar_free getSubstitution].
  intros [Hc Hv]%andb_true_iff. apply negb_true_iff in Hc. rewrite Hc.
  by rewrite IH.
Qed.

Lemma replaceFrom_before key value skip before before' text :
  dollar_free value = true →
  replaceFrom key value skip before text = replaceFrom key value skip before' text.
Proof.
  intros Hv. revert skip before before'.
  induction text as [|c text IH]; intros skip before before'; [done|].
  cbn [replaceFrom]. destruct skip as [|n]; [|apply IH].
  destruct (match_placeholder key (String c text)) as [len|].
  - rewrite !getSubstitution_dollar_free by done. f_equal. apply IH.
  - f_equal. apply IH.
Qed.

Lemma replaceFrom_skip key value before pre rest :
  dollar_free value = true →
  replaceFrom key value (String.length pre) before (pre +:+ rest)
  = replaceAll key value rest.
Proof.
  intros Hv. revert before. induction pre as [|c pre IH]; intros before.
  - rewrite append_nil_l. cbn [String.length]. by apply replaceFrom_before.
  - rewrite append_cons. cbn [String.length replaceFrom]. apply IH.
Qed.

Lemma replaceAll_occurrence key value ws1 ws2 rest :
  literal_pattern key = true → dollar_free value = true →
  spaces ws1 = true → spaces ws2 = true →
  replaceAll key value (placeholder ws1 key ws2 +:+ rest)
  = value +:+ replaceAll key value rest.
Proof.
  intros Hkey Hv H1 H2.
  destruct (match_placeholder_complete key (placeholder ws1 key ws2 +:+ rest))
    as [len Hlen]; [by exists ws1, ws2, rest|].
  pose proof Hlen as Hsound.
  apply match_placeholder_sound in Hsound as (ws1' & ws2' & rest' & H1' & H2' & Heq & ->).
  apply placeholder_unique in Heq as [Hocc _]; [|done..].
  rewrite <- Hocc in Hlen. clear Hocc ws1' ws2' rest' H1' H2'.
  assert (∃ occ, placeholder ws1 key ws2 = String "{" occ) as [occ Hocc]
    by (by eexists).
  rewrite Hocc, append_cons in *.
  unfold replaceAll. cbn [replaceFrom]. rewrite Hlen.
  rewrite getSubstitution_dollar_free by done. f_equal.
  cbn [String.length].
  replace (S (String.length occ) - 1) with (String.length occ) by lia.
  by apply replaceFrom_skip.
Qed.


Lemma placeholder_length ws1 key ws2 : 0 < String.length (placeholder ws1 key ws2).
Proof. unfold placeholder. rewrite length_append. cbn. lia. Qed.



(** *** All entries *)





(** ** The theorems at sample contexts *)

Lemma react_typescript_vite_tailwindcss_witness :
  (projectType (config tailwindContext) = Some react
   ∧ language (config tailwindContext) = Some typescript
   ∧ buildTool (config tailwindContext) = Some "vite"
   ∧ cssFramework (config tailwindContext) = Some "tailwindcss"
   ∧ fileExtension tailwindContext = getFileExtension typescript
   ∧ viteConfigEditor tailwindContext = Some newEditor)
  ∧ let ctx' := (generate tailwindContext).1 in
    files ctx' !! "src/app.tsx" = Some generateAppFile
    ∧ files ctx' !! "src/main.tsx" = Some (generateMainFile "src/app.tsx")
    ∧ files ctx' !! "src/vite-env.d.ts" = Some generateViteEnvFile
    ∧ files ctx' !! "src/styles/global.css" = Some (quoted "@import ~tailwindcss~;")
    ∧ get_dep "tailwindcss" (devDependencies (packageJson ctx')) = Some "^4.1.11"
    ∧ get_dep "@tailwindcss/vite" (devDependencies (packageJson ctx')) = Some "^4.1.11"
    ∧ ∃ ve', viteConfigEditor ctx' = Some ve'
        ∧ ve' = addVitePlugin "viteConfig" "tailwindcss()"
                  (addImport "viteConfig" "import tailwindcss from '@tailwindcss/vite'"
                     (reactPlugin newEditor))
        ∧ "import tailwindcss from '@tailwindcss/vite'"
            ∈ imports (fragments ve' "viteConfig")
        ∧ "tailwindcss()" ∈ plugins (fragments ve' "viteConfig").
Proof.
  split; [repeat split|].
  apply (react_typescript_vite_tailwindcss tailwindContext newEditor); reflexivity.
Defined.

Lemma generate_rejects_other_project_types_witness :
  projectType (config vueContext) ≠ Some react
  ∧ (generate vueContext).2 = Throw (validation (invalidProjectType (Some vue)))
  ∧ files (generate vueContext).1 = files vueContext
  ∧ packageJson (generate vueContext).1 = packageJson vueContext
  ∧ (generate vueContext).1 = vueContext.
Proof.
  split; [discriminate|].
  apply (generate_rejects_other_project_types vueContext). discriminate.
Defined.



Lemma counter_path_has_two_dots_witness :
  (projectType (config plainContext) = Some react
   ∧ fileExtension plainContext = getFileExtension typescript
   ∧ vite_ready plainContext)
  ∧ files (generate plainContext).1 !! "src/components/counter..tsx"
    = Some generateCounterFile
  ∧ files (generate plainContext).1 !! "src/components/counter.tsx"
    = files plainContext !! "src/components/counter.tsx".
Proof.
  assert (vite_ready plainContext) as Hready by (intros _; by eexists).
  split; [repeat split; exact Hready|].
  apply (counter_path_has_two_dots plainContext typescript);
    [reflexivity..|exact Hready].
Defined.

Lemma react_typescript_vite_unocss_witness :
  (projectType (config unocssContext) = Some react
   ∧ language (config unocssContext) = Some typescript
   ∧ buildTool (config unocssContext) = Some "vite"
   ∧ cssFramework (config unocssContext) = Some "unocss"
   ∧ viteConfigEditor unocssContext = Some newEditor
   ∧ mainEditor unocssContext = Some newEditor)
  ∧ let ctx' := (generate unocssContext).1 in
    files ctx' !! "uno.config.ts" = Some generateUnoCssConfig
    ∧ get_dep "unocss" (devDependencies (packageJson ctx')) = Some "^66.3.3"
    ∧ ∃ me', mainEditor ctx' = Some me'
        ∧ me' = addImport "main" "import 'virtual:uno.css'" newEditor
        ∧ "import 'virtual:uno.css'" ∈ imports (fragments me' "main").
Proof.
  split; [repeat split|].
  apply (react_typescript_vite_unocss unocssContext newEditor newEditor); reflexivity.
Defined.

Lemma default_project_name_witness :
  (projectType (config plainContext) = Some react
   ∧ (targetDir (config plainContext) = None ∨ targetDir (config plainContext) = Some "")
   ∧ vite_ready plainContext)
  ∧ let ctx' := (generate plainContext).1 in
    name (packageJson ctx') = "hana-project"
    ∧ files ctx' !! "README.md"
      = Some (generateReadmeTemplate "react" "hana-project" (Some "A React project"))
    ∧ ∃ readme, files ctx' !! "README.md" = Some readme
        ∧ String.prefix "# hana-project" readme = true.
Proof.
  assert (vite_ready plainContext) as Hready by (intros _; by eexists).
  split; [split; [reflexivity|split; [by left|exact Hready]]|].
  apply (default_project_name plainContext); [reflexivity|by left|exact Hready].
Defined.

Lemma generation_is_deterministic_witness :
  (config tailwindContext = config secondPassContext
   ∧ fileExtension tailwindContext = fileExtension secondPassContext
   ∧ files tailwindContext = files secondPassContext
   ∧ packageJson tailwindContext = packageJson secondPassContext
   ∧ (is_Some (viteConfigEditor tailwindContext)
      ↔ is_Some (viteConfigEditor secondPassContext))
   ∧ (is_Some (mainEditor tailwindContext) ↔ is_Some (mainEditor secondPassContext)))
  ∧ (files (generate tailwindContext).1 = files (generate secondPassContext).1
     ∧ packageJson (generate tailwindContext).1
       = packageJson (generate secondPassContext).1
     ∧ (generate tailwindContext).2 = (generate secondPassContext).2)
  ∧ (∀ a b, a = b → generateMainFile a = generateMainFile b)
  ∧ (∀ t t' n n' d d', t = t' → n = n' → d = d' →
       generateReadmeTemplate t n d = generateReadmeTemplate t' n' d')
  ∧ (∀ t t' p p', t = t' → p = p' → generateHtmlTemplate t p = generateHtmlTemplate t' p').
Proof.
  assert (is_Some (viteConfigEditor tailwindContext)
          ↔ is_Some (viteConfigEditor secondPassContext)) as Hv
    by (split; intros _; by eexists).
  assert (is_Some (mainEditor tailwindContext)
          ↔ is_Some (mainEditor secondPassContext)) as Hm
    by (split; intros _; by eexists).
  split; [repeat split; apply Hv || apply Hm|].
  apply (generation_is_deterministic tailwindContext secondPassContext);
    [reflexivity..|exact Hv|exact Hm].
Defined.

Lemma tailwindcss_without_vite_witness :
  (projectType (config webpackContext) = Some react
   ∧ cssFramework (config webpackContext) = Some "tailwindcss"
   ∧ buildTool (config webpackContext) ≠ Some "vite")
  ∧ let ctx' := (generate webpackContext).1 in
    get_dep "tailwindcss" (devDependencies (packageJson ctx')) = Some "^4.1.11"
    ∧ get_dep "@tailwindcss/vite" (devDependencies (packageJson ctx'))
      = get_dep "@tailwindcss/vite" (devDependencies (packageJson webpackContext))
    ∧ files ctx' !! "src/styles/global.css"
      = files webpackContext !! "src/styles/global.css"
    ∧ viteConfigEditor ctx' = viteConfigEditor webpackContext
    ∧ mainEditor ctx' = mainEditor webpackContext
    ∧ (generate webpackContext).2 = Normal ().
Proof.
  split; [repeat split; discriminate|].
  apply (tailwindcss_without_vite webpackContext); [reflexivity..|discriminate].
Defined.


(** * Further properties *)

(** ** The phases of the generator, continued *)

Section MoreGeneratorFacts.
Context {V M : Type} `{!AddImport V, !AddVitePlugin V, !AddImport M}.
Implicit Types ctx : ProjectContext V M.

(** [generate] either leaves the context as it is (a throw in its first
    lines) or writes the scaffold and runs the features. *)
Lemma generate_shape ctx :
  (generate ctx).1 = ctx ∨ ∃ editor, generate ctx = features (scaffold editor ctx).
Proof.
  destruct (not_react (projectType (config ctx))) eqn:Hp.
  - left. by rewrite generate_not_react.
  - assert (projectType (config ctx) = Some react) as Hr
      by (by destruct (projectType (config ctx)) as [[]|]).
    destruct (strict_eq (buildTool (config ctx)) "vite") eqn:Hb.
    + destruct (viteConfigEditor ctx) as [ve|] eqn:Hv.
      * right. eexists. by apply generate_vite.
      * left. by rewrite generate_vite_no_editor.
    + right. eexists. by apply generate_no_vite.
Qed.

(** The framework step: directories, dependencies and files it keeps. *)
Lemma generateCssFramework_keeps ctx :
  let ctx' := (generateCssFramework ctx).1 in
  projectDir ctx' = projectDir ctx ∧ cwd ctx' = cwd ctx
  ∧ (∀ k, k ≠ "tailwindcss" → k ≠ "@tailwindcss/vite" → k ≠ "unocss" →
       get_dep k (devDependencies (packageJson ctx'))
       = get_dep k (devDependencies (packageJson ctx)))
  ∧ (∀ k, is_Some (files ctx !! k) → is_Some (files ctx' !! k)).
Proof.
  destruct ctx as [cfg pd cw pj fs ext v m]. destruct pj.
  unfold generateCssFramework. cbv zeta. ctx_simpl.
  destruct (not_react (projectType cfg)); [by gen_step|].
  destruct (strict_eq (cssFramework cfg) "tailwindcss");
    [|destruct (strict_eq (cssFramework cfg) "unocss")];
    destruct (strict_eq (buildTool cfg) "vite"), v, m; gen_step;
    (split; [done|split; [done|split]]);
    try (intros k ? ? ?; by rewrite ?get_put_dep_ne by done);
    intros k Hk; rewrite ?lookup_insert; try case_decide; done || by eexists.
Qed.

Lemma generateCssPreprocessor_keeps ctx :
  let ctx' := (generateCssPreprocessor ctx).1 in
  projectDir ctx' = projectDir ctx ∧ cwd ctx' = cwd ctx.
Proof.
  destruct ctx as [cfg pd cw pj fs ext v m].
  unfold generateCssPreprocessor. cbv zeta. ctx_simpl.
  destruct (not_react (projectType cfg)); [by gen_step|].
  destruct (strict_eq (cssPreprocessor cfg) "less");
    [|destruct (strict_eq (cssPreprocessor cfg) "scss")]; by gen_step.
Qed.

(** What step 4 keeps, beyond [features_frame]. *)
Lemma features_keeps ctx :
  let ctx' := (features ctx).1 in
  projectDir ctx' = projectDir ctx ∧ cwd ctx' = cwd ctx
  ∧ fileExtension ctx' = fileExtension ctx
  ∧ (∀ k, ¬ k ∈ added_devDependencies →
       get_dep k (devDependencies (packageJson ctx'))
       = get_dep k (devDependencies (packageJson ctx)))
  ∧ (∀ k, is_Some (files ctx !! k) → is_Some (files ctx' !! k)).
Proof.
  cbv zeta.
  pose proof (generateCssFramework_keeps ctx) as (Hd1 & Hw1 & Hk1 & Hf1).
  pose proof (generateCssFramework_frame ctx) as (_ & He1 & _).
  cbv zeta in Hd1, Hw1, Hk1, Hf1, He1.
  assert (Hmid :
    let c1 :=
      if truthy (cssFramework (config ctx))
         && negb (strict_eq (cssFramework (config ctx)) "none")
      then (generateCssFramework ctx).1 else ctx in
    projectDir c1 = projectDir ctx ∧ cwd c1 = cwd ctx
    ∧ fileExtension c1 = fileExtension ctx
    ∧ (∀ k, ¬ k ∈ added_devDependencies →
         get_dep k (devDependencies (packageJson c1))
         = get_dep k (devDependencies (packageJson ctx)))
    ∧ (∀ k, is_Some (files ctx !! k) → is_Some (files c1 !! k))).
  { cbv zeta. destruct (truthy _ && negb _); [|done].
    repeat split; try done. intros k Hk. apply Hk1; intros ->; apply Hk;
      unfold added_devDependencies; repeat constructor. }
  cbv zeta in Hmid. destruct Hmid as (Hd & Hw & He & Hk & Hf).
  destruct (features_cases ctx) as [-> | ->]; [done|].
  match goal with |- context [generateCssPreprocessor ?c] =>
    pose proof (generateCssPreprocessor_frame c) as (_ & He2 & Hf2 & _ & _ & _ & Hk2);
    pose proof (generateCssPreprocessor_keeps c) as (Hd2 & Hw2)
  end.
  cbv zeta in He2, Hf2, Hk2, Hd2, Hw2.
  repeat split; try congruence.
  - intros k Hnot. rewrite Hk2; [by apply Hk| |]; intros ->; apply Hnot;
      unfold added_devDependencies; repeat constructor.
  - intros k Hsome. rewrite Hf2. by apply Hf.
Qed.

Lemma scaffoldFiles_keeps cfg ext (fs : gmap string string) k :
  is_Some (fs !! k) → is_Some (scaffoldFiles cfg ext fs !! k).
Proof.
  intros Hk. unfold scaffoldFiles. cbv zeta.
  destruct (is_typescript (language cfg));
    repeat (rewrite lookup_insert; case_decide; [by eexists|]); done.
Qed.


(** How the framework step completes. *)
Lemma generateCssFramework_completion ctx :
  projectType (config ctx) = Some react →
  (generateCssFramework ctx).2 =
    if uses_main_editor (config ctx)
    then match viteConfigEditor ctx, mainEditor ctx with
         | Some _, Some _ => Normal ()
         | _, _ => Throw (TypeError "addImport")
         end
    else Normal ().
Proof.
  intros Hp. destruct ctx as [cfg pd cw pj fs ext v m]. cbn [config] in Hp.
  unfold generateCssFramework, uses_main_editor. cbv zeta. ctx_simpl.
  rewrite Hp. cbn [not_react].
  destruct (strict_eq (cssFramework cfg) "tailwindcss");
    [|destruct (strict_eq (cssFramework cfg) "unocss")];
    destruct (strict_eq (buildTool cfg) "vite"), v, m; by gen_step.
Qed.

(** A framework the generator does not know contributes nothing. *)
Lemma generateCssFramework_unknown ctx :
  projectType (config ctx) = Some react →
  strict_eq (cssFramework (config ctx)) "tailwindcss" = false →
  strict_eq (cssFramework (config ctx)) "unocss" = false →
  generateCssFramework ctx = (ctx, Normal ()).
Proof.
  intros Hp Ht Hu. destruct ctx as [cfg pd cw pj fs ext v m]. cbn [config] in *.
  unfold generateCssFramework. cbv zeta. ctx_simpl. by rewrite Hp, Ht, Hu.
Qed.

Lemma generateCssFramework_unocss_other ctx :
  projectType (config ctx) = Some react →
  cssFramework (config ctx) = Some "unocss" →
  strict_eq (buildTool (config ctx)) "vite" = false →
  generateCssFramework ctx =
    (mkContext (config ctx) (projectDir ctx) (cwd ctx)
       (set_devDependencies
          (put_dep "unocss" "^66.3.3" (devDependencies (packageJson ctx)))
          (packageJson ctx))
       (files ctx) (fileExtension ctx) (viteConfigEditor ctx) (mainEditor ctx),
     Normal ()).
Proof.
  intros Hp Hc Hb. destruct ctx as [cfg pd cw pj fs ext v m]. simpl in *.
  unfold generateCssFramework. cbv zeta. ctx_simpl. rewrite Hp, Hc, Hb.
  eval_tests. gen_step. done.
Qed.

(** The preprocessor step, case by case. *)
Lemma generateCssPreprocessor_less ctx :
  projectType (config ctx) = Some react →
  cssPreprocessor (config ctx) = Some "less" →
  devDependencies (packageJson (generateCssPreprocessor ctx).1)
  = put_dep "less" "^4.3.0" (devDependencies (packageJson ctx)).
Proof.
  intros Hp Hc. destruct ctx as [cfg pd cw pj fs ext v m]. cbn [config] in *.
  unfold generateCssPreprocessor. cbv zeta. ctx_simpl. rewrite Hp, Hc.
  eval_tests. by gen_step.
Qed.

Lemma generateCssPreprocessor_scss ctx :
  projectType (config ctx) = Some react →
  cssPreprocessor (config ctx) = Some "scss" →
  devDependencies (packageJson (generateCssPreprocessor ctx).1)
  = put_dep "sass" "^1.89.2" (devDependencies (packageJson ctx)).
Proof.
  intros Hp Hc. destruct ctx as [cfg pd cw pj fs ext v m]. cbn [config] in *.
  unfold generateCssPreprocessor. cbv zeta. ctx_simpl. rewrite Hp, Hc.
  eval_tests. by gen_step.
Qed.

Lemma generateCssPreprocessor_unknown ctx :
  projectType (config ctx) = Some react →
  strict_eq (cssPreprocessor (config ctx)) "less" = false →
  strict_eq (cssPreprocessor (config ctx)) "scss" = false →
  generateCssPreprocessor ctx = (ctx, Normal ()).
Proof.
  intros Hp Hl Hs. destruct ctx as [cfg pd cw pj fs ext v m]. cbn [config] in *.
  unfold generateCssPreprocessor. cbv zeta. ctx_simpl. by rewrite Hp, Hl, Hs.
Qed.

(** Step 4 as a sequence: the framework step, then the preprocessor step
    unless the first one threw. *)
Lemma features_run ctx :
  features ctx =
    let r1 :=
      if truthy (cssFramework (config ctx))
         && negb (strict_eq (cssFramework (config ctx)) "none")
      then generateCssFramework ctx else (ctx, Normal ()) in
    match r1.2 with
    | Normal _ =>
        if truthy (cssPreprocessor (config ctx))
        then generateCssPreprocessor r1.1 else (r1.1, Normal ())
    | Throw e => (r1.1, Throw e)
    end.
Proof.
  unfold features. cbv zeta.
  destruct (truthy (cssFramework (config ctx))
            && negb (strict_eq (cssFramework (config ctx)) "none")); gen_step.
  - destruct (generateCssFramework ctx) as [c [[]|e]]; cbn [fst snd]; [|done].
    by destruct (truthy (cssPreprocessor (config ctx))).
  - by destruct (truthy (cssPreprocessor (config ctx))).
Qed.

(** The framework step is skipped only for frameworks it would ignore. *)
Lemma uses_main_editor_called cfg :
  uses_main_editor cfg = true →
  truthy (cssFramework cfg) && negb (strict_eq (cssFramework cfg) "none") = true.
Proof.
  unfold uses_main_editor. intros H.
  apply andb_true_iff in H as [_ H]. apply orb_true_iff in H.
  destruct (cssFramework cfg) as [s|]; cbn [strict_eq] in H; [|by destruct H].
  destruct H as [H|H]; apply String.eqb_eq in H; subst s; reflexivity.
Qed.

(** How step 4 completes. *)
Lemma features_completion ctx :
  projectType (config ctx) = Some react →
  (features ctx).2 =
    if uses_main_editor (config ctx)
    then match viteConfigEditor ctx, mainEditor ctx with
         | Some _, Some _ => Normal ()
         | _, _ => Throw (TypeError "addImport")
         end
    else Normal ().
Proof.
  intros Hp. rewrite features_run. cbv zeta.
  pose proof (generateCssFramework_completion ctx Hp) as Hfw.
  pose proof (generateCssFramework_frame ctx) as (Hcfg & _). cbv zeta in Hcfg.
  assert (∀ c : ProjectContext V M, config c = config ctx →
            (if truthy (cssPreprocessor (config ctx))
             then generateCssPreprocessor c else (c, Normal ())).2 = Normal ())
    as Hpre.
  { intros c Hc. destruct (truthy (cssPreprocessor (config ctx))); [|done].
    apply generateCssPreprocessor_normal. by rewrite Hc. }
  destruct (truthy (cssFramework (config ctx))
            && negb (strict_eq (cssFramework (config ctx)) "none")) eqn:Hcall.
  - rewrite Hfw. destruct (uses_main_editor (config ctx)); [|by apply Hpre].
    destruct (viteConfigEditor ctx), (mainEditor ctx); try done. by apply Hpre.
  - cbn [fst snd].
    destruct (uses_main_editor (config ctx)) eqn:Hu;
      [apply uses_main_editor_called in Hu; congruence|].
    by apply Hpre.
Qed.
End MoreGeneratorFacts.

(** ** Errors, frames and merges of the generator *)

Section MoreGeneratorClaims.
Context {V M : Type} `{!AddImport V, !AddVitePlugin V, !AddImport M}.
Implicit Types ctx : ProjectContext V M.

(** X1: with the build tool 'vite' and no build-tool editor in the context, the
    generator throws a TypeError at its first editor call, before anything is
    written: the context is returned as it was. *)
Theorem missing_build_tool_editor ctx :
  projectType (config ctx) = Some react →
  buildTool (config ctx) = Some "vite" →
  viteConfigEditor ctx = None →
  generate ctx = (ctx, Throw (TypeError "addImport")).
Proof.
  intros Hp Hb Hv. apply generate_vite_no_editor; try done. by rewrite Hb.
Qed.

(** X2: with the build tool 'vite', the framework tailwindcss or unocss, a
    build-tool editor and no main editor, the generator throws a TypeError at
    the call on the main editor, the last one of the framework step.  What was
    done before stays: the manifest name, the scaffold files, the dependency
    and the file of the framework.  The preprocessor step is not reached: the
    dependencies less and sass are as before, whatever cssPreprocessor is. *)
Theorem missing_main_editor ctx (ve : V) :
  projectType (config ctx) = Some react →
  buildTool (config ctx) = Some "vite" →
  cssFramework (config ctx) = Some "tailwindcss"
  ∨ cssFramework (config ctx) = Some "unocss" →
  viteConfigEditor ctx = Some ve →
  mainEditor ctx = None →
  let ctx' := (generate ctx).1 in
  (generate ctx).2 = Throw (TypeError "addImport")
  ∧ name (packageJson ctx') = or_else (targetDir (config ctx)) "hana-project"
  ∧ files ctx' !! ".gitignore" = Some generateGitignore
  ∧ (cssFramework (config ctx) = Some "tailwindcss" →
       get_dep "tailwindcss" (devDependencies (packageJson ctx')) = Some "^4.1.11"
       ∧ is_Some (files ctx' !! "src/styles/global.css"))
  ∧ (cssFramework (config ctx) = Some "unocss" →
       get_dep "unocss" (devDependencies (packageJson ctx')) = Some "^66.3.3"
       ∧ is_Some (files ctx' !! "uno.config.ts"))
  ∧ get_dep "less" (devDependencies (packageJson ctx'))
    = get_dep "less" (devDependencies (packageJson ctx))
  ∧ get_dep "sass" (devDependencies (packageJson ctx'))
    = get_dep "sass" (devDependencies (packageJson ctx)).
Proof.
  intros Hp Hb Hc Hv Hm. cbv zeta.
  assert (strict_eq (buildTool (config ctx)) "vite" = true) as Hvite by by rewrite Hb.
  rewrite (generate_vite ctx ve Hp Hvite Hv).
  set (X := scaffold _ ctx).
  assert (uses_main_editor (config X) = true) as Huses.
  { unfold uses_main_editor. change (config X) with (config ctx). rewrite Hvite.
    by destruct Hc as [-> | ->]. }
  pose proof (uses_main_editor_called _ Huses) as Hcall.
  pose proof (generateCssFramework_completion X Hp) as Hfw.
  rewrite Huses in Hfw. cbn [X scaffold viteConfigEditor mainEditor] in Hfw.
  rewrite Hm in Hfw. fold X in Hfw.
  rewrite features_run. cbv zeta. rewrite Hcall, Hfw. cbn [fst snd].
  pose proof (generateCssFramework_frame X) as (_ & _ & Hpkg & Hfiles).
  pose proof (generateCssFramework_keeps X) as (_ & _ & Hdeps & _).
  cbv zeta in Hpkg, Hfiles, Hdeps.
  split; [done|]. split.
  { rewrite Hpkg. by destruct ctx as [? ? ? [] ? ? ? ?]. }
  split.
  { rewrite Hfiles by discriminate. unfold X, scaffold, scaffoldFiles.
    cbn [files]. apply lookup_insert_eq. }
  split; [|split; [|split]].
  - intros Htw.
    pose proof (generateCssFramework_tailwindcss_vite X (reactPlugin ve) Hp Htw Hb eq_refl)
      as (Hf & Hd & _). cbv zeta in Hf, Hd.
    rewrite Hd, Hf, get_put_dep_ne, get_put_dep, lookup_insert_eq by discriminate.
    by split; [|eexists].
  - intros Huno. clear Hfw Hpkg Hfiles Hdeps.
    destruct ctx as [cfg pd cw pj fs ext v m]. cbn [config viteConfigEditor mainEditor] in *.
    subst v m. unfold X, scaffold, generateCssFramework. cbv zeta. ctx_simpl.
    rewrite Hp, Huno, Hb. eval_tests. gen_step.
    rewrite get_put_dep, lookup_insert_eq. by split; [|eexists].
  - rewrite Hdeps by discriminate. by destruct ctx as [? ? ? [] ? ? ? ?].
  - rewrite Hdeps by discriminate. by destruct ctx as [? ? ? [] ? ? ? ?].
Qed.

(** X3: for a react configuration the generator completes normally exactly
    when every editor it calls is there: the build-tool editor when the build
    tool is 'vite', and also the main editor when the framework is
    tailwindcss or unocss.  Otherwise it throws a TypeError for addImport; it
    never throws the validation error. *)
Theorem generate_completion ctx :
  projectType (config ctx) = Some react →
  ((generate ctx).2 = Normal () ↔ editors_ready ctx)
  ∧ ((generate ctx).2 = Normal () ∨ (generate ctx).2 = Throw (TypeError "addImport")).
Proof.
  intros Hp. unfold editors_ready.
  destruct (strict_eq (buildTool (config ctx)) "vite") eqn:Hb.
  - destruct (viteConfigEditor ctx) as [ve|] eqn:Hv.
    + rewrite (generate_vite ctx ve Hp Hb Hv).
      rewrite features_completion by done.
      change (config (scaffold _ ctx)) with (config ctx).
      cbn [scaffold viteConfigEditor mainEditor].
      destruct (uses_main_editor (config ctx)); [|by repeat split; eauto].
      destruct (mainEditor ctx) as [me|].
      * repeat split; eauto.
      * split; [|by right]. split; [done|]. intros [_ Hm].
        by destruct (Hm eq_refl).
    + rewrite generate_vite_no_editor by done. split; [|by right].
      split; [done|]. intros [Hve _]. by destruct (Hve eq_refl).
  - rewrite generate_no_vite by done. rewrite features_completion by done.
    change (config (scaffold _ ctx)) with (config ctx).
    unfold uses_main_editor. rewrite Hb. cbn [andb].
    split; [|by left]. split; [|done]. by intros _; split.
Qed.

(** X4: whatever the context, the generator leaves the configuration, the
    directories and the file extension alone, and in the manifest the members
    type, main, module, types, scripts, dependencies, peerDependencies, files,
    keywords and author. *)
Theorem generate_frame ctx :
  let ctx' := (generate ctx).1 in
  (config ctx' = config ctx ∧ projectDir ctx' = projectDir ctx
   ∧ cwd ctx' = cwd ctx ∧ fileExtension ctx' = fileExtension ctx)
  ∧ (type (packageJson ctx') = type (packageJson ctx)
     ∧ main (packageJson ctx') = main (packageJson ctx)
     ∧ module (packageJson ctx') = module (packageJson ctx)
     ∧ types (packageJson ctx') = types (packageJson ctx)
     ∧ scripts (packageJson ctx') = scripts (packageJson ctx)
     ∧ dependencies (packageJson ctx') = dependencies (packageJson ctx)
     ∧ peerDependencies (packageJson ctx') = peerDependencies (packageJson ctx)
     ∧ pkgFiles (packageJson ctx') = pkgFiles (packageJson ctx)
     ∧ keywords (packageJson ctx') = keywords (packageJson ctx)
     ∧ author (packageJson ctx') = author (packageJson ctx)).
Proof.
  cbv zeta. destruct (generate_shape ctx) as [-> | [editor ->]]; [done|].
  pose proof (features_frame (scaffold editor ctx)) as (Hc & Hp & _).
  pose proof (features_keeps (scaffold editor ctx)) as (Hd & Hw & He & _).
  cbv zeta in Hc, Hp, Hd, Hw, He.
  split; [done|]. rewrite Hp. by destruct ctx as [? ? ? [] ? ? ? ?].
Qed.

(** X5: for a react configuration whose build-tool editor is there when
    needed, the manifest after the generator has the name
    [targetDir || 'hana-project'] (the target directory when it is a non-empty
    string), the version 1.0.0, the description 'A React project', the license
    MIT, and as engines exactly the one entry for node: engines the manifest
    had before are replaced, not merged. *)
Theorem generate_manifest_fields ctx :
  projectType (config ctx) = Some react →
  vite_ready ctx →
  let p := packageJson (generate ctx).1 in
  name p = or_else (targetDir (config ctx)) "hana-project"
  ∧ (∀ dir, targetDir (config ctx) = Some dir → dir ≠ "" → name p = dir)
  ∧ version p = "1.0.0"
  ∧ description p = Some "A React project"
  ∧ license p = Some "MIT"
  ∧ engines p = Some {[ "node" := ">=18.12.0" ]}.
Proof.
  intros Hp Hr. cbv zeta.
  destruct (generate_ready ctx Hp Hr) as [editor ->].
  pose proof (features_frame (scaffold editor ctx)) as (_ & Hpkg & _).
  cbv zeta in Hpkg. rewrite Hpkg. unfold scaffold, scaffoldManifest. ctx_simpl.
  repeat split. intros dir -> Hdir. cbn [or_else].
  by apply String.eqb_neq in Hdir as ->.
Qed.

(** X6: the generator merges into devDependencies.  Every entry other than
    tailwindcss, @tailwindcss/vite, unocss, less and sass is, after the call,
    what it was before; an entry that was there is kept with its version. *)
Theorem generate_keeps_other_devDependencies ctx :
  (∀ k, k ∉ added_devDependencies →
     get_dep k (devDependencies (packageJson (generate ctx).1))
     = get_dep k (devDependencies (packageJson ctx)))
  ∧ (∀ k v, k ∉ added_devDependencies →
       get_dep k (devDependencies (packageJson ctx)) = Some v →
       get_dep k (devDependencies (packageJson (generate ctx).1)) = Some v).
Proof.
  assert (∀ k, k ∉ added_devDependencies →
     get_dep k (devDependencies (packageJson (generate ctx).1))
     = get_dep k (devDependencies (packageJson ctx))) as Hkeep.
  { intros k Hk. destruct (generate_shape ctx) as [-> | [editor ->]]; [done|].
    pose proof (features_keeps (scaffold editor ctx)) as (_ & _ & _ & Hdeps & _).
    cbv zeta in Hdeps. rewrite Hdeps by done.
    by destruct ctx as [? ? ? [] ? ? ? ?]. }
  split; [done|]. intros k v Hk Hv. by rewrite Hkeep.
Qed.

(** X7: the generator writes no path outside its list of ten (for the file
    extension of the context), so every other entry of the file map is
    unchanged; and it deletes nothing: a path that was in the map is still in
    it. *)
Theorem generate_keeps_other_files ctx :
  (∀ path, path ∉ written_paths (fileExtension ctx) →
     files (generate ctx).1 !! path = files ctx !! path)
  ∧ (∀ path, is_Some (files ctx !! path) → is_Some (files (generate ctx).1 !! path)).
Proof.
  split; intros path Hpath.
  - destruct (generate_shape ctx) as [-> | [editor ->]]; [done|].
    pose proof (features_frame (scaffold editor ctx)) as (_ & _ & Hfiles).
    cbv zeta in Hfiles. unfold written_paths in Hpath.
    rewrite Hfiles by (intros ->; apply Hpath; repeat constructor).
    cbn [scaffold files config fileExtension].
    destruct (decide (scaffoldFiles (config ctx) (fileExtension ctx) (files ctx) !! path
                      = files ctx !! path)) as [|Hne]; [done|].
    apply scaffoldFiles_changed in Hne. destruct Hpath.
    rewrite !elem_of_cons in *. tauto.
  - destruct (generate_shape ctx) as [-> | [editor ->]]; [done|].
    pose proof (features_keeps (scaffold editor ctx)) as (_ & _ & _ & _ & Hkeep).
    cbv zeta in Hkeep. apply Hkeep. cbn [scaffold files].
    by apply scaffoldFiles_keeps.
Qed.

(** X8: a react configuration whose cssFramework is neither tailwindcss nor
    unocss (undefined, empty, 'none' or any other string) gets nothing from
    the framework step: the generator completes normally, the stylesheet and
    uno.config.ts are as before, so is every devDependency other than less and
    sass, the main editor is untouched, and the build-tool editor has received
    the two react calls and nothing else (and no call unless the build tool is
    'vite'). *)
Theorem generate_without_css_framework ctx :
  projectType (config ctx) = Some react →
  cssFramework (config ctx) ≠ Some "tailwindcss" →
  cssFramework (config ctx) ≠ Some "unocss" →
  vite_ready ctx →
  let ctx' := (generate ctx).1 in
  (generate ctx).2 = Normal ()
  ∧ files ctx' !! "src/styles/global.css" = files ctx !! "src/styles/global.css"
  ∧ files ctx' !! "uno.config.ts" = files ctx !! "uno.config.ts"
  ∧ (∀ k, k ≠ "less" → k ≠ "sass" →
       get_dep k (devDependencies (packageJson ctx'))
       = get_dep k (devDependencies (packageJson ctx)))
  ∧ mainEditor ctx' = mainEditor ctx
  ∧ viteConfigEditor ctx' =
      (if strict_eq (buildTool (config ctx)) "vite"
       then reactPlugin <$> viteConfigEditor ctx else viteConfigEditor ctx).
Proof.
  intros Hp Ht Hu Hr. cbv zeta.
  apply strict_eq_false in Ht. apply strict_eq_false in Hu.
  assert (∃ editor, generate ctx = features (scaffold editor ctx)
          ∧ editor = (if strict_eq (buildTool (config ctx)) "vite"
                      then reactPlugin <$> viteConfigEditor ctx
                      else viteConfigEditor ctx)) as (editor & -> & Hed).
  { destruct (strict_eq (buildTool (config ctx)) "vite") eqn:Hb.
    - destruct (Hr Hb) as [ve Hve]. exists (Some (reactPlugin ve)).
      rewrite Hve. split; [by apply generate_vite|done].
    - eexists. split; [by apply generate_no_vite|done]. }
  set (X := scaffold editor ctx).
  assert (generateCssFramework X = (X, Normal ())) as Hfw
    by (by apply generateCssFramework_unknown).
  rewrite features_run. cbv zeta.
  assert ((if truthy (cssFramework (config X))
              && negb (strict_eq (cssFramework (config X)) "none")
           then generateCssFramework X else (X, Normal ())) = (X, Normal ())) as ->
    by (by destruct (truthy _ && negb _)).
  cbn [fst snd].
  assert (files X !! "src/styles/global.css" = files ctx !! "src/styles/global.css"
          ∧ files X !! "uno.config.ts" = files ctx !! "uno.config.ts") as [Hg Huno].
  { unfold X, scaffold, scaffoldFiles. cbn [files]. cbv zeta.
    split; destruct (is_typescript _); by rewrite !lookup_insert_ne by done. }
  assert (devDependencies (packageJson X) = devDependencies (packageJson ctx)) as Hd
    by (by destruct ctx as [? ? ? [] ? ? ? ?]).
  destruct (truthy (cssPreprocessor (config X))).
  - pose proof (generateCssPreprocessor_frame X) as (_ & _ & Hf & Hve & Hme & _ & Hk).
    pose proof (generateCssPreprocessor_normal X Hp) as Hn.
    cbv zeta in Hf, Hve, Hme, Hk. rewrite Hf, Hve, Hme.
    repeat split; try done; intros k ? ?; rewrite Hk by done; by rewrite Hd.
  - cbn [fst snd]. repeat split; try done; intros k _ _; by rewrite Hd.
Qed.

(** X9: with the framework unocss and a build tool other than 'vite', the
    generator sets the devDependency unocss to '^66.3.3' and stops there:
    uno.config.ts is as before, both editors are untouched whatever their
    implementation, and the call completes normally. *)
Theorem unocss_without_vite ctx :
  projectType (config ctx) = Some react →
  cssFramework (config ctx) = Some "unocss" →
  buildTool (config ctx) ≠ Some "vite" →
  let ctx' := (generate ctx).1 in
  get_dep "unocss" (devDependencies (packageJson ctx')) = Some "^66.3.3"
  ∧ files ctx' !! "uno.config.ts" = files ctx !! "uno.config.ts"
  ∧ viteConfigEditor ctx' = viteConfigEditor ctx
  ∧ mainEditor ctx' = mainEditor ctx
  ∧ (generate ctx).2 = Normal ().
Proof.
  intros Hp Hc Hb. apply strict_eq_false in Hb. cbv zeta.
  rewrite (generate_no_vite ctx Hp Hb).
  set (X := scaffold (viteConfigEditor ctx) ctx).
  pose proof (generateCssFramework_unocss_other X Hp Hc Hb) as Hfw.
  rewrite features_run. cbv zeta. change (config X) with (config ctx). rewrite Hc.
  change (truthy _ && negb _) with true. cbv iota. rewrite Hfw. cbn [fst snd].
  match goal with |- context [generateCssPreprocessor ?c] => set (c1 := c) end.
  pose proof (generateCssPreprocessor_frame c1) as (_ & _ & Hf & Hve & Hme & _ & Hk).
  pose proof (generateCssPreprocessor_normal c1 Hp) as Hn.
  cbv zeta in Hf, Hve, Hme, Hk.
  assert (get_dep "unocss" (devDependencies (packageJson c1)) = Some "^66.3.3"
          ∧ files c1 !! "uno.config.ts" = files ctx !! "uno.config.ts") as [Hu Hg].
  { unfold c1, X, scaffold, scaffoldManifest, scaffoldFiles. ctx_simpl.
    rewrite get_put_dep. split; [done|]. cbv zeta.
    destruct (is_typescript _); by rewrite !lookup_insert_ne by done. }
  destruct (truthy (cssPreprocessor (config ctx))).
  - rewrite Hk, Hf, Hve, Hme by discriminate. done.
  - done.
Qed.

(** X10: for a react configuration whose editors are there, the preprocessor
    'less' adds the devDependency less at '^4.3.0' and leaves sass alone; the
    preprocessor 'scss' adds the package sass at '^1.89.2' (no entry named
    scss) and leaves less alone; any other preprocessor value leaves both
    alone. *)
Theorem css_preprocessor_dependencies ctx :
  projectType (config ctx) = Some react →
  editors_ready ctx →
  let d := devDependencies (packageJson ctx) in
  let d' := devDependencies (packageJson (generate ctx).1) in
  (cssPreprocessor (config ctx) = Some "less" →
     get_dep "less" d' = Some "^4.3.0" ∧ get_dep "sass" d' = get_dep "sass" d)
  ∧ (cssPreprocessor (config ctx) = Some "scss" →
       get_dep "sass" d' = Some "^1.89.2" ∧ get_dep "less" d' = get_dep "less" d
       ∧ get_dep "scss" d' = get_dep "scss" d)
  ∧ (cssPreprocessor (config ctx) ≠ Some "less" →
     cssPreprocessor (config ctx) ≠ Some "scss" →
       get_dep "less" d' = get_dep "less" d ∧ get_dep "sass" d' = get_dep "sass" d).
Proof.
  intros Hp [Hve Hme]. cbv zeta.
  assert (∃ editor, generate ctx = features (scaffold editor ctx)
          ∧ (strict_eq (buildTool (config ctx)) "vite" = true → is_Some editor))
    as (editor & -> & Hed).
  { destruct (strict_eq (buildTool (config ctx)) "vite") eqn:Hb.
    - destruct (Hve eq_refl) as [ve Hv]. exists (Some (reactPlugin ve)).
      split; [by apply generate_vite|by eexists].
    - eexists. split; [by apply generate_no_vite|done]. }
  set (X := scaffold editor ctx).
  pose proof (generateCssFramework_completion X Hp) as Hfw.
  assert ((if uses_main_editor (config X)
           then match viteConfigEditor X, mainEditor X with
                | Some _, Some _ => Normal ()
                | _, _ => Throw (TypeError "addImport")
                end
           else Normal ()) = Normal ()) as Hok.
  { change (config X) with (config ctx). cbn [X scaffold viteConfigEditor mainEditor].
    destruct (uses_main_editor (config ctx)) eqn:Hu; [|done].
    destruct (Hme eq_refl) as [me ->].
    unfold uses_main_editor in Hu. apply andb_true_iff in Hu as [Hb _].
    by destruct (Hed Hb) as [ve ->]. }
  rewrite Hok in Hfw. clear Hok.
  rewrite features_run. cbv zeta.
  set (r1 := if truthy (cssFramework (config X))
                && negb (strict_eq (cssFramework (config X)) "none")
             then generateCssFramework X else (X, Normal ())).
  assert (r1.2 = Normal ()
          ∧ config r1.1 = config ctx
          ∧ ∀ k, k = "less" ∨ k = "sass" ∨ k = "scss" →
              get_dep k (devDependencies (packageJson r1.1))
              = get_dep k (devDependencies (packageJson ctx))) as (Hn & Hcfg & Hdeps).
  { assert (devDependencies (packageJson X) = devDependencies (packageJson ctx)) as Hd
      by (by destruct ctx as [? ? ? [] ? ? ? ?]).
    unfold r1. destruct (truthy _ && negb _); cbn [fst snd].
    - pose proof (generateCssFramework_frame X) as (Hc & _).
      pose proof (generateCssFramework_keeps X) as (_ & _ & Hk & _).
      cbv zeta in Hc, Hk. split; [done|]. split; [done|].
      intros k Hcase. rewrite Hk, Hd; [done|..]; intros ->;
        by destruct Hcase as [|[|]].
    - split; [done|]. split; [done|]. intros k _. by rewrite Hd. }
  rewrite Hn. clearbody r1. destruct r1 as [c1 n1]. cbn [fst snd] in *.
  change (config X) with (config ctx).
  assert (projectType (config c1) = Some react) as Hp1 by (by rewrite Hcfg).
  split; [|split].
  - intros Hless. rewrite Hless. cbn [truthy String.eqb Ascii.eqb Bool.eqb negb].
    rewrite (generateCssPreprocessor_less c1 Hp1) by (by rewrite Hcfg).
    rewrite get_put_dep, get_put_dep_ne by done. split; [done|]. apply Hdeps; auto.
  - intros Hscss. rewrite Hscss. cbn [truthy String.eqb Ascii.eqb Bool.eqb negb].
    rewrite (generateCssPreprocessor_scss c1 Hp1) by (by rewrite Hcfg).
    rewrite get_put_dep, !get_put_dep_ne by done. repeat split; apply Hdeps; auto.
  - intros Hl%strict_eq_false Hs%strict_eq_false.
    destruct (truthy (cssPreprocessor (config ctx))); cbn [fst snd].
    + rewrite generateCssPreprocessor_unknown by (by rewrite ?Hcfg).
      split; apply Hdeps; auto.
    + split; apply Hdeps; auto.
Qed.

(** X11: generateRoutingLibrary with 'react-router' in a react configuration
    adds the dependency react-router at '^7.6.3' and writes the router index
    and the home page under the file extension of the context; it completes
    normally and touches no other dependency, no devDependency, no other file
    and no editor. *)
Theorem generateRoutingLibrary_react_router ctx :
  projectType (config ctx) = Some react →
  routingLibrary (config ctx) = Some "react-router" →
  let ctx' := (generateRoutingLibrary ctx).1 in
  (generateRoutingLibrary ctx).2 = Normal ()
  ∧ get_dep "react-router" (dependencies (packageJson ctx')) = Some "^7.6.3"
  ∧ files ctx' !! ("src/router/index" +:+ fileExtension ctx +:+ "x")
    = Some generateReactRouterIndex
  ∧ files ctx' !! ("src/pages/home/index" +:+ fileExtension ctx +:+ "x")
    = Some generateDefaultPage
  ∧ (∀ k, k ≠ "react-router" →
       get_dep k (dependencies (packageJson ctx'))
       = get_dep k (dependencies (packageJson ctx)))
  ∧ devDependencies (packageJson ctx') = devDependencies (packageJson ctx)
  ∧ (∀ path,
       path ≠ "src/router/index" +:+ fileExtension ctx +:+ "x" →
       path ≠ "src/pages/home/index" +:+ fileExtension ctx +:+ "x" →
       files ctx' !! path = files ctx !! path)
  ∧ viteConfigEditor ctx' = viteConfigEditor ctx
  ∧ mainEditor ctx' = mainEditor ctx.
Proof.
  intros Hp Hr. destruct ctx as [cfg pd cw pj fs ext v m]. destruct pj.
  cbn [config] in *. unfold generateRoutingLibrary. cbv zeta. ctx_simpl.
  rewrite Hp, Hr. eval_tests. gen_step.
  repeat split.
  - apply get_put_dep.
  - rewrite lookup_insert_ne by done. apply lookup_insert_eq.
  - apply lookup_insert_eq.
  - intros k Hk. by apply get_put_dep_ne.
  - intros path H1 H2. by rewrite !lookup_insert_ne by congruence.
Qed.

(** The steps read the configuration only through its choices. *)
Lemma generateCssFramework_reads_choices :
  reads_choices (V:=V) (M:=M) generateCssFramework.
Proof.
  intros [cfg pd cw pj fs ext v m] cfg' (Hp & _ & _ & Hb & Hc & _).
  cbn [config] in *. unfold with_config, generateCssFramework. cbv zeta. ctx_simpl.
  rewrite <- Hp, <- Hb, <- Hc.
  destruct (not_react (projectType cfg)); [by gen_step|].
  destruct (strict_eq (cssFramework cfg) "tailwindcss");
    [|destruct (strict_eq (cssFramework cfg) "unocss")];
    destruct (strict_eq (buildTool cfg) "vite"), v, m; by gen_step.
Qed.

Lemma generateCssPreprocessor_reads_choices :
  reads_choices (V:=V) (M:=M) generateCssPreprocessor.
Proof.
  intros [cfg pd cw pj fs ext v m] cfg' (Hp & _ & _ & _ & _ & Hc).
  cbn [config] in *. unfold with_config, generateCssPreprocessor. cbv zeta. ctx_simpl.
  rewrite <- Hp, <- Hc.
  destruct (not_react (projectType cfg)); [by gen_step|].
  destruct (strict_eq (cssPreprocessor cfg) "less");
    [|destruct (strict_eq (cssPreprocessor cfg) "scss")]; by gen_step.
Qed.

Lemma features_reads_choices :
  reads_choices (V:=V) (M:=M) features.
Proof.
  intros ctx cfg' Hsame. pose proof Hsame as (_ & _ & _ & _ & Hc & Hpre).
  rewrite !features_run. cbv zeta.
  change (config (with_config cfg' ctx)) with cfg'. rewrite <- Hc, <- Hpre.
  destruct (truthy (cssFramework (config ctx))
            && negb (strict_eq (cssFramework (config ctx)) "none")).
  - pose proof (generateCssFramework_reads_choices ctx cfg' Hsame) as E.
    destruct (generateCssFramework (with_config cfg' ctx)) as [c' n'].
    injection E as -> ->. cbn [fst snd].
    pose proof (generateCssFramework_frame ctx) as (Hcfg & _). cbv zeta in Hcfg.
    destruct (generateCssFramework ctx) as [c1 [[]|e]]; cbn [fst snd] in *; [|done].
    destruct (truthy (cssPreprocessor (config ctx))); [|done].
    apply generateCssPreprocessor_reads_choices. by rewrite Hcfg.
  - cbn [fst snd]. destruct (truthy (cssPreprocessor (config ctx))); [|done].
    by apply generateCssPreprocessor_reads_choices.
Qed.

Lemma scaffold_with_config editor ctx cfg' :
  same_choices (config ctx) cfg' →
  scaffold editor (with_config cfg' ctx) = with_config cfg' (scaffold editor ctx).
Proof.
  intros (Hp & Ht & Hl & _). unfold scaffold, with_config, scaffoldFiles, scaffoldManifest.
  ctx_simpl. by rewrite Hp, Ht, Hl.
Qed.

(** X12: the generator reads six members of the configuration: projectType,
    targetDir, language, buildTool, cssFramework and cssPreprocessor.  Under
    any other configuration with the same six, it completes the same way and
    leaves the same context (files, manifest, editors).  So the routing
    library, the package manager and the other answers have no effect on it:
    generateRoutingLibrary is not part of a generation pass. *)
Theorem generate_reads_choices ctx cfg' :
  same_choices (config ctx) cfg' →
  generate (with_config cfg' ctx) = (with_config cfg' (generate ctx).1, (generate ctx).2).
Proof.
  intros Hsame. pose proof Hsame as (Hp & _ & _ & Hb & _).
  assert (∀ editor, same_choices (config (scaffold editor ctx)) cfg') as Hsc by done.
  destruct (not_react (projectType (config ctx))) eqn:Hnr.
  - rewrite !generate_not_react by (by cbn [with_config config]; rewrite <- ?Hp).
    cbn [fst snd with_config config]. by rewrite Hp.
  - assert (projectType (config ctx) = Some react) as Hr
      by (by destruct (projectType (config ctx)) as [[]|]).
    assert (projectType (config (with_config cfg' ctx)) = Some react) as Hr'
      by (by cbn [with_config config]; rewrite <- Hp).
    destruct (strict_eq (buildTool (config ctx)) "vite") eqn:Hvite.
    + assert (strict_eq (buildTool (config (with_config cfg' ctx))) "vite" = true)
        as Hvite' by (by cbn [with_config config]; rewrite <- Hb).
      destruct (viteConfigEditor ctx) as [ve|] eqn:Hv.
      * rewrite (generate_vite ctx ve), (generate_vite (with_config cfg' ctx) ve)
          by done.
        rewrite scaffold_with_config by done. by apply features_reads_choices.
      * by rewrite !generate_vite_no_editor.
    + assert (strict_eq (buildTool (config (with_config cfg' ctx))) "vite" = false)
        as Hvite' by (by cbn [with_config config]; rewrite <- Hb).
      rewrite !generate_no_vite by done.
      change (viteConfigEditor (with_config cfg' ctx)) with (viteConfigEditor ctx).
      rewrite scaffold_with_config by done. by apply features_reads_choices.
Qed.

(** X13: for every react configuration, the generated main file imports the
    app from './src/app' with the extension (the path from the project root,
    in a file that is itself under src/) and mounts on the element 'root';
    the generated index.html loads '/src/main' with the extension and has an
    element with id 'app' and none with id 'root'. *)
Theorem generated_entry_points ctx lang :
  projectType (config ctx) = Some react →
  fileExtension ctx = getFileExtension lang →
  vite_ready ctx →
  let ctx' := (generate ctx).1 in
  let mainPath := "src/main" +:+ getFileExtension lang +:+ "x" in
  let appPath := "src/app" +:+ getFileExtension lang +:+ "x" in
  ∃ mainFile html,
    files ctx' !! mainPath = Some mainFile
    ∧ files ctx' !! "index.html" = Some html
    ∧ is_Some (files ctx' !! appPath)
    ∧ occurrences ("import App from './" +:+ appPath +:+ "'") mainFile = 1
    ∧ occurrences "getElementById('root')" mainFile = 1
    ∧ occurrences (quoted "src=~/" +:+ mainPath +:+ quoted "~") html = 1
    ∧ occurrences (quoted "id=~root~") html = 0
    ∧ occurrences (quoted "id=~app~") html = 1.
Proof.
  intros Hp He Hr. cbv zeta.
  destruct (generate_ready ctx Hp Hr) as [editor ->].
  pose proof (features_frame (scaffold editor ctx)) as (_ & _ & Hfiles).
  cbv zeta in Hfiles. cbn [scaffold files config fileExtension] in Hfiles.
  rewrite He in Hfiles.
  exists (generateMainFile ("src/app" +:+ getFileExtension lang +:+ "x")),
    (generateHtmlTemplate "react project"
       ("/" +:+ "src/main" +:+ getFileExtension lang +:+ "x")).
  rewrite !Hfiles by (destruct lang; discriminate). unfold scaffoldFiles. cbv zeta.
  destruct lang, (is_typescript (language (config ctx)));
    cbn [getFileExtension]; (split; [by files_lookup|]); (split; [by files_lookup|]);
    (split; [files_lookup; by eexists|]); by vm_compute.
Qed.
End MoreGeneratorClaims.

(** ** More about [renderTemplate] *)

Lemma match_placeholder_open_braces key text :
  is_Some (match_placeholder key text) →
  ∃ rest, text = String "{" (String "{" rest).
Proof.
  intros [n Hn]. unfold match_placeholder in Hn.
  apply match_literal_Some in Hn as (rest & m & -> & _). by exists rest.
Qed.

Lemma replaceFrom_no_open_braces key value before text :
  no_open_braces text = true → replaceFrom key value 0 before text = text.
Proof.
  revert before. induction text as [|c text IH]; intros before Hno; [done|].
  cbn [replaceFrom]. cbn [no_open_braces] in Hno.
  apply andb_true_iff in Hno as [Hhead Hno].
  destruct (match_placeholder key (String c text)) as [len|] eqn:E.
  - destruct (match_placeholder_open_braces key (String c text)) as [rest Heq];
      [by eexists|].
    injection Heq as -> ->. done.
  - f_equal. by apply IH.
Qed.

(** X14: a template without two opening braces in a row (the empty template
    among them) is returned as it is, whatever the values are. *)
Theorem renderTemplate_without_braces (template : string)
    (variables : list (string * string)) :
  no_open_braces template = true →
  Forall (λ entry, literal_pattern entry.1 = true) variables →
  renderTemplate template variables = Some template.
Proof.
  intros Hno Hall. induction Hall as [|[key value] rest Hkey _ IH]; [done|].
  cbn [renderTemplate]. cbn [fst] in Hkey. rewrite Hkey.
  unfold replaceAll. by rewrite replaceFrom_no_open_braces.
Qed.

(** X15: rendering with the entries of two maps one after the other is
    rendering with the first and then rendering the result with the second. *)
Theorem renderTemplate_app (template : string)
    (first second : list (string * string)) :
  renderTemplate template (first ++ second)
  = renderTemplate template first ≫= λ text, renderTemplate text second.
Proof.
  revert template. induction first as [|[key value] first IH]; intros template; [done|].
  cbn [renderTemplate app]. destruct (literal_pattern key); [apply IH|done].
Qed.

Lemma append_nil_r (s : string) : s +:+ "" = s.
Proof. induction s as [|c s IH]; [done|]. by rewrite append_cons, IH. Qed.

Lemma string_take_drop (n : nat) (s : string) : string_take n s +:+ string_drop n s = s.
Proof.
  revert s. induction n as [|n IH]; intros [|c s]; try done.
  cbn [string_take string_drop]. by rewrite append_cons, IH.
Qed.

Lemma replaceFrom_matched key skip before text :
  replaceFrom key "$&" skip before text = string_drop skip text.
Proof.
  revert skip before. induction text as [|c text IH]; intros skip before.
  - by destruct skip.
  - cbn [replaceFrom]. destruct skip as [|n]; [|apply IH].
    cbn [string_drop].
    destruct (match_placeholder key (String c text)) as [len|] eqn:E.
    + apply match_placeholder_sound in E as (ws1 & ws2 & rest & _ & _ & _ & Hlen).
      pose proof (placeholder_length ws1 key ws2) as Hpos.
      destruct len as [|len]; [lia|]. clear Hlen Hpos.
      rewrite IH. cbn [getSubstitution string_take Ascii.eqb Bool.eqb].
      rewrite append_nil_r, append_cons. f_equal.
      replace (S len - 1) with len by lia. apply string_take_drop.
    + f_equal. rewrite IH. done.
Qed.

(** X16: the value [$&] is the replacement pattern for the matched text: with
    it every placeholder is replaced by itself and the template comes back
    unchanged. *)
Theorem renderTemplate_matched_text (template key : string) :
  literal_pattern key = true →
  renderTemplate template [(key, "$&")] = Some template.
Proof.
  intros Hkey. cbn [renderTemplate]. rewrite Hkey. unfold replaceAll.
  by rewrite replaceFrom_matched.
Qed.

Lemma literal_pattern_dollar_free key : literal_pattern key = true → dollar_free key = true.
Proof.
  induction key as [|c key IH]; [done|]. cbn [literal_pattern dollar_free].
  intros [Hc Hkey]%andb_true_iff. rewrite IH by done.
  destruct (Ascii.eqb_spec c "$") as [-> | _]; [by vm_compute in Hc|done].
Qed.

Lemma dollar_free_append s t :
  dollar_free s = true → dollar_free t = true → dollar_free (s +:+ t) = true.
Proof.
  induction s as [|c s IH]; [done|]. cbn [dollar_free]. rewrite append_cons.
  cbn [dollar_free]. intros [-> Hs]%andb_true_iff Ht. by rewrite IH.
Qed.

(** X17: values are scanned again by the entries that follow: a value that is
    the placeholder of a later key ends up replaced by the value of that
    key. *)
Theorem renderTemplate_rescans_values (key later value : string) :
  literal_pattern key = true →
  literal_pattern later = true →
  dollar_free value = true →
  renderTemplate (placeholder "" key "")
    [(key, placeholder "" later ""); (later, value)]
  = Some value.
Proof.
  intros Hkey Hlater Hvalue. cbn [renderTemplate]. rewrite Hkey, Hlater.
  assert (dollar_free (placeholder "" later "") = true) as Hph.
  { unfold placeholder. repeat apply dollar_free_append; try done.
    by apply literal_pattern_dollar_free. }
  rewrite <- (append_nil_r (placeholder "" key "")).
  rewrite replaceAll_occurrence by done.
  change (replaceAll key (placeholder "" later "") "") with "".
  rewrite replaceAll_occurrence by done.
  change (replaceAll later value "") with "". by rewrite append_nil_r.
Qed.

(** ** The further properties at sample contexts *)

Lemma missing_build_tool_editor_witness :
  (projectType (config noViteEditorContext) = Some react
   ∧ buildTool (config noViteEditorContext) = Some "vite"
   ∧ viteConfigEditor noViteEditorContext = None)
  ∧ generate noViteEditorContext = (noViteEditorContext, Throw (TypeError "addImport")).
Proof.
  split; [repeat split|].
  apply (missing_build_tool_editor noViteEditorContext); reflexivity.
Defined.

Lemma missing_main_editor_witness :
  (projectType (config noMainEditorContext) = Some react
   ∧ buildTool (config noMainEditorContext) = Some "vite"
   ∧ (cssFramework (config noMainEditorContext) = Some "tailwindcss"
      ∨ cssFramework (config noMainEditorContext) = Some "unocss")
   ∧ viteConfigEditor noMainEditorContext = Some newEditor
   ∧ mainEditor noMainEditorContext = None)
  ∧ let ctx' := (generate noMainEditorContext).1 in
    (generate noMainEditorContext).2 = Throw (TypeError "addImport")
    ∧ name (packageJson ctx')
      = or_else (targetDir (config noMainEditorContext)) "hana-project"
    ∧ files ctx' !! ".gitignore" = Some generateGitignore
    ∧ (cssFramework (config noMainEditorContext) = Some "tailwindcss" →
         get_dep "tailwindcss" (devDependencies (packageJson ctx')) = Some "^4.1.11"
         ∧ is_Some (files ctx' !! "src/styles/global.css"))
    ∧ (cssFramework (config noMainEditorContext) = Some "unocss" →
         get_dep "unocss" (devDependencies (packageJson ctx')) = Some "^66.3.3"
         ∧ is_Some (files ctx' !! "uno.config.ts"))
    ∧ get_dep "less" (devDependencies (packageJson ctx'))
      = get_dep "less" (devDependencies (packageJson noMainEditorContext))
    ∧ get_dep "sass" (devDependencies (packageJson ctx'))
      = get_dep "sass" (devDependencies (packageJson noMainEditorContext)).
Proof.
  split; [split; [reflexivity|split; [reflexivity|split; [by left|by split]]]|].
  apply (missing_main_editor noMainEditorContext newEditor);
    [reflexivity|reflexivity|by left|reflexivity|reflexivity].
Defined.

Lemma generate_completion_witness :
  projectType (config routedContext) = Some react
  ∧ ((generate routedContext).2 = Normal () ↔ editors_ready routedContext)
  ∧ ((generate routedContext).2 = Normal ()
     ∨ (generate routedContext).2 = Throw (TypeError "addImport")).
Proof.
  split; [reflexivity|]. apply (generate_completion routedContext). reflexivity.
Defined.

Lemma generate_manifest_fields_witness :
  (projectType (config routedContext) = Some react ∧ vite_ready routedContext)
  ∧ let p := packageJson (generate routedContext).1 in
    name p = or_else (targetDir (config routedContext)) "hana-project"
    ∧ (∀ dir, targetDir (config routedContext) = Some dir → dir ≠ "" → name p = dir)
    ∧ version p = "1.0.0"
    ∧ description p = Some "A React project"
    ∧ license p = Some "MIT"
    ∧ engines p = Some {[ "node" := ">=18.12.0" ]}.
Proof.
  assert (vite_ready routedContext) as Hready by (intros _; by eexists).
  split; [by split|].
  apply (generate_manifest_fields routedContext); [reflexivity|exact Hready].
Defined.

Lemma generate_without_css_framework_witness :
  (projectType (config plainContext) = Some react
   ∧ cssFramework (config plainContext) ≠ Some "tailwindcss"
   ∧ cssFramework (config plainContext) ≠ Some "unocss"
   ∧ vite_ready plainContext)
  ∧ let ctx' := (generate plainContext).1 in
    (generate plainContext).2 = Normal ()
    ∧ files ctx' !! "src/styles/global.css" = files plainContext !! "src/styles/global.css"
    ∧ files ctx' !! "uno.config.ts" = files plainContext !! "uno.config.ts"
    ∧ (∀ k, k ≠ "less" → k ≠ "sass" →
         get_dep k (devDependencies (packageJson ctx'))
         = get_dep k (devDependencies (packageJson plainContext)))
    ∧ mainEditor ctx' = mainEditor plainContext
    ∧ viteConfigEditor ctx' =
        (if strict_eq (buildTool (config plainContext)) "vite"
         then reactPlugin <$> viteConfigEditor plainContext
         else viteConfigEditor plainContext).
Proof.
  assert (vite_ready plainContext) as Hready by (intros _; by eexists).
  split; [split; [reflexivity|split; [discriminate|split; [discriminate|exact Hready]]]|].
  apply (generate_without_css_framework plainContext);
    [reflexivity|discriminate|discriminate|exact Hready].
Defined.

Lemma unocss_without_vite_witness :
  (projectType (config unocssWebpackContext) = Some react
   ∧ cssFramework (config unocssWebpackContext) = Some "unocss"
   ∧ buildTool (config unocssWebpackContext) ≠ Some "vite")
  ∧ let ctx' := (generate unocssWebpackContext).1 in
    get_dep "unocss" (devDependencies (packageJson ctx')) = Some "^66.3.3"
    ∧ files ctx' !! "uno.config.ts" = files unocssWebpackContext !! "uno.config.ts"
    ∧ viteConfigEditor ctx' = viteConfigEditor unocssWebpackContext
    ∧ mainEditor ctx' = mainEditor unocssWebpackContext
    ∧ (generate unocssWebpackContext).2 = Normal ().
Proof.
  split; [repeat split; discriminate|].
  apply (unocss_without_vite unocssWebpackContext); [reflexivity..|discriminate].
Defined.

Lemma css_preprocessor_dependencies_witness :
  (projectType (config routedContext) = Some react ∧ editors_ready routedContext)
  ∧ let d := devDependencies (packageJson routedContext) in
    let d' := devDependencies (packageJson (generate routedContext).1) in
    (cssPreprocessor (config routedContext) = Some "less" →
       get_dep "less" d' = Some "^4.3.0" ∧ get_dep "sass" d' = get_dep "sass" d)
    ∧ (cssPreprocessor (config routedContext) = Some "scss" →
         get_dep "sass" d' = Some "^1.89.2" ∧ get_dep "less" d' = get_dep "less" d
         ∧ get_dep "scss" d' = get_dep "scss" d)
    ∧ (cssPreprocessor (config routedContext) ≠ Some "less" →
       cssPreprocessor (config routedContext) ≠ Some "scss" →
         get_dep "less" d' = get_dep "less" d ∧ get_dep "sass" d' = get_dep "sass" d).
Proof.
  assert (editors_ready routedContext) as Hready
    by (split; intros _; by eexists).
  split; [by split|].
  apply (css_preprocessor_dependencies routedContext); [reflexivity|exact Hready].
Defined.

Lemma generateRoutingLibrary_react_router_witness :
  (projectType (config routedContext) = Some react
   ∧ routingLibrary (config routedContext) = Some "react-router")
  ∧ let ctx' := (generateRoutingLibrary routedContext).1 in
    (generateRoutingLibrary routedContext).2 = Normal ()
    ∧ get_dep "react-router" (dependencies (packageJson ctx')) = Some "^7.6.3"
    ∧ files ctx' !! ("src/router/index" +:+ fileExtension routedContext +:+ "x")
      = Some generateReactRouterIndex
    ∧ files ctx' !! ("src/pages/home/index" +:+ fileExtension routedContext +:+ "x")
      = Some generateDefaultPage
    ∧ (∀ k, k ≠ "react-router" →
         get_dep k (dependencies (packageJson ctx'))
         = get_dep k (dependencies (packageJson routedContext)))
    ∧ devDependencies (packageJson ctx') = devDependencies (packageJson routedContext)
    ∧ (∀ path,
         path ≠ "src/router/index" +:+ fileExtension routedContext +:+ "x" →
         path ≠ "src/pages/home/index" +:+ fileExtension routedContext +:+ "x" →
         files ctx' !! path = files routedContext !! path)
    ∧ viteConfigEditor ctx' = viteConfigEditor routedContext
    ∧ mainEditor ctx' = mainEditor routedContext.
Proof.
  split; [by split|].
  apply (generateRoutingLibrary_react_router routedContext); reflexivity.
Defined.

Lemma generate_reads_choices_witness :
  same_choices (config routedContext) unroutedConfig
  ∧ generate (with_config unroutedConfig routedContext)
    = (with_config unroutedConfig (generate routedContext).1, (generate routedContext).2).
Proof.
  assert (same_choices (config routedContext) unroutedConfig) as Hsame
    by (by repeat split).
  split; [exact Hsame|].
  exact (generate_reads_choices routedContext unroutedConfig Hsame).
Defined.

Lemma generated_entry_points_witness :
  (projectType (config plainContext) = Some react
   ∧ fileExtension plainContext = getFileExtension typescript
   ∧ vite_ready plainContext)
  ∧ let ctx' := (generate plainContext).1 in
    let mainPath := "src/main" +:+ getFileExtension typescript +:+ "x" in
    let appPath := "src/app" +:+ getFileExtension typescript +:+ "x" in
    ∃ mainFile html,
      files ctx' !! mainPath = Some mainFile
      ∧ files ctx' !! "index.html" = Some html
      ∧ is_Some (files ctx' !! appPath)
      ∧ occurrences ("import App from './" +:+ appPath +:+ "'") mainFile = 1
      ∧ occurrences "getElementById('root')" mainFile = 1
      ∧ occurrences (quoted "src=~/" +:+ mainPath +:+ quoted "~") html = 1
      ∧ occurrences (quoted "id=~root~") html = 0
      ∧ occurrences (quoted "id=~app~") html = 1.
Proof.
  assert (vite_ready plainContext) as Hready by (intros _; by eexists).
  split; [by repeat split|].
  apply (generated_entry_points plainContext typescript); [reflexivity..|exact Hready].
Defined.

Lemma renderTemplate_without_braces_witness :
  (no_open_braces "body { margin: 0 }" = true
   ∧ Forall (λ entry, literal_pattern entry.1 = true) [("margin", "$&$$")])
  ∧ renderTemplate "body { margin: 0 }" [("margin", "$&$$")] = Some "body { margin: 0 }".
Proof.
  assert (Forall (λ entry : string * string, literal_pattern entry.1 = true)
            [("margin", "$&$$")]) as Hall by (by repeat constructor).
  split; [by split|].
  exact (renderTemplate_without_braces "body { margin: 0 }" [("margin", "$&$$")]
           eq_refl Hall).
Defined.

Lemma renderTemplate_matched_text_witness :
  literal_pattern "name" = true
  ∧ renderTemplate "Hi {{ name }}, {{name}}!" [("name", "$&")]
    = Some "Hi {{ name }}, {{name}}!".
Proof.
  split; [reflexivity|].
  exact (renderTemplate_matched_text "Hi {{ name }}, {{name}}!" "name" eq_refl).
Defined.

Lemma renderTemplate_rescans_values_witness :
  (literal_pattern "title" = true ∧ literal_pattern "name" = true
   ∧ dollar_free "World" = true)
  ∧ renderTemplate (placeholder "" "title" "")
      [("title", placeholder "" "name" ""); ("name", "World")]
    = Some "World".
Proof.
  split; [by repeat split|].
  exact (renderTemplate_rescans_values "title" "name" "World" eq_refl eq_refl eq_refl).
Defined.
